(** * Resource resolution of the tensorboard uploader

    A shallow embedding of
    [google/cloud/aiplatform/tensorboard/uploader_utils.py]: the two
    resource managers ([OnePlatformResourceManager] and
    [TimeSeriesResourceManager]), their in-memory caches and the
    create-or-get protocol they run against the tensorboard service.

    Conventions of the embedding.
    - A Python [str] is a [string]; each character stands for one code
      point below 256.
    - A dictionary is a [gmap].
    - A method is a state-and-exception computation: it receives the
      object it is called on together with the environment, and returns
      either a value or the exception it raised, with the state reached
      (effects made before a [raise] are kept, as in Python).
    - The service client [_api] is an arbitrary implementation of the
      four remote procedures the module calls; every call is appended to
      a log, the way a mock client records its calls.
    - A pager returned by a list call is taken as the finite sequence of
      resources it yields. *)

From Stdlib Require Import Ascii String List Bool Arith Lia.
From stdpp Require Import base option gmap strings list fin_maps.

Import ListNotations.
Local Open Scope string_scope.
Local Open Scope list_scope.

(** ** Python strings *)

Module PyStr.

(** [sub in s] *)
Fixpoint contains (sub s : string) : bool :=
  String.prefix sub s ||
  match s with
  | EmptyString => false
  | String _ s' => contains sub s'
  end.

(** [a == b] on [str] *)
Definition eqb (a b : string) : bool := bool_decide (a = b).

Definition quote : ascii := "034"%char.
Definition backslash : ascii := "092"%char.

Definition hex_digit (n : nat) : ascii :=
  match String.get n "0123456789abcdef" with
  | Some c => c
  | None => "0"%char
  end.

(** One character of [json.encoder.py_encode_basestring_ascii], for
    the code points below 256 that a [string] holds: the short escapes
    of [ESCAPE_DCT], the printable range [' '..'~'] kept, everything
    else as [\u00XX] in lower-case hexadecimal.  The encoder's cases
    for larger code points (four hexadecimal digits, surrogate pairs)
    are outside the embedding. *)
Definition escape_ascii (c : ascii) : string :=
  let n := nat_of_ascii c in
  if Nat.eqb n 34 then String backslash (String quote EmptyString)
  else if Nat.eqb n 92 then String backslash (String backslash EmptyString)
  else if Nat.eqb n 8 then String backslash "b"
  else if Nat.eqb n 12 then String backslash "f"
  else if Nat.eqb n 10 then String backslash "n"
  else if Nat.eqb n 13 then String backslash "r"
  else if Nat.eqb n 9 then String backslash "t"
  else if Nat.leb 32 n && Nat.leb n 126 then String c EmptyString
  else String backslash
       ("u00" ++ String (hex_digit (n / 16))
                   (String (hex_digit (n mod 16)) EmptyString)).

Fixpoint escape_all (s : string) : string :=
  match s with
  | EmptyString => EmptyString
  | String c s' => escape_ascii c ++ escape_all s'
  end.

(** [json.dumps(s)] for a [str] argument (default [ensure_ascii]). *)
Definition json_dumps (s : string) : string :=
  String quote (escape_all s ++ String quote EmptyString).

(** Strings that need no escape: printable, without quote or backslash. *)
Definition plain_ascii (c : ascii) : bool :=
  let n := nat_of_ascii c in
  Nat.leb 32 n && Nat.leb n 126 && negb (Nat.eqb n 34) && negb (Nat.eqb n 92).

Fixpoint plain (s : string) : bool :=
  match s with
  | EmptyString => true
  | String c s' => plain_ascii c && plain s'
  end.

End PyStr.

(** ** Exceptions *)

(** The exceptions that travel through the module: the one the
    [except] clauses catch, the two the module raises itself, the
    [KeyError] of a dictionary subscript, and every other error a call
    of the client may raise ([google.api_core] has no subclass of
    [InvalidArgument], so these never match the [except] clause). *)
Inductive exn : Type :=
| InvalidArgument (message : string)
| ExistingResourceNotFoundError (msg : string)
| ValueError (msg : string)
| KeyError
| OtherError (cls : string) (message : string).

Inductive result (A : Type) : Type :=
| Ok (a : A)
| Raise (e : exn).
Arguments Ok {A} a.
Arguments Raise {A} e.

(** ** Resources *)

(** The messages carry the fields the module reads or writes, and of
    the others enough to tell an empty message from one that is not. *)
Record TensorboardRun : Type := mkRun {
  tbr_name : string;
  tbr_display_name : string;
  tbr_description : string
}.

(** [tensorboard_run.TensorboardRun()] *)
Definition TensorboardRun_new : TensorboardRun := mkRun EmptyString EmptyString EmptyString.

Definition run_set_display_name (r : TensorboardRun) (d : string) : TensorboardRun :=
  mkRun (tbr_name r) d (tbr_description r).

Inductive ValueType : Type :=
| VALUE_TYPE_UNSPECIFIED
| SCALAR
| TENSOR
| BLOB_SEQUENCE.

Record TensorboardTimeSeries : Type := mkTimeSeries {
  ts_name : string;
  ts_display_name : string;
  ts_description : string;
  ts_value_type : ValueType;
  ts_plugin_name : string
}.

Definition ts_set_display_name (t : TensorboardTimeSeries) (d : string)
  : TensorboardTimeSeries :=
  mkTimeSeries (ts_name t) d (ts_description t) (ts_value_type t) (ts_plugin_name t).

Definition str_bool (s : string) : bool :=
  match s with EmptyString => false | String _ _ => true end.

Definition value_type_bool (v : ValueType) : bool :=
  match v with VALUE_TYPE_UNSPECIFIED => false | _ => true end.

(** Truth value of a message, as [if not time_series] reads it: a
    message is true when one of its fields is set. *)
Definition ts_bool (t : TensorboardTimeSeries) : bool :=
  str_bool (ts_name t) || str_bool (ts_display_name t) || str_bool (ts_description t)
  || value_type_bool (ts_value_type t) || str_bool (ts_plugin_name t).

(** [tensorboard_time_series.TensorboardTimeSeries()]: the message with
    no field set. *)
Definition TensorboardTimeSeries_new : TensorboardTimeSeries :=
  mkTimeSeries EmptyString EmptyString EmptyString VALUE_TYPE_UNSPECIFIED EmptyString.

(** [tensorboard_service.ListTensorboardTimeSeriesRequest(parent=, filter=)] *)
Record ListTensorboardTimeSeriesRequest : Type := mkListTSRequest {
  req_parent : string;
  req_filter : string
}.

(** ** The service client and the environment *)

(** One entry of the call log per remote procedure call, with the
    arguments the module passed. *)
Inductive ApiCall : Type :=
| CreateTensorboardRun (parent : string) (tensorboard_run : TensorboardRun)
                       (tensorboard_run_id : string)
| ListTensorboardRuns (parent : string)
| CreateTensorboardTimeSeries (parent : string)
                              (tensorboard_time_series : TensorboardTimeSeries)
| ListTensorboardTimeSeries (request : ListTensorboardTimeSeriesRequest).

(** The client: each procedure reads and changes the state of the world
    outside the process, and returns or raises. *)
Record TensorboardServiceClient (World : Type) : Type := mkClient {
  create_tensorboard_run :
    string -> TensorboardRun -> string -> World -> result TensorboardRun * World;
  list_tensorboard_runs :
    string -> World -> result (list TensorboardRun) * World;
  create_tensorboard_time_series :
    string -> TensorboardTimeSeries -> World -> result TensorboardTimeSeries * World;
  list_tensorboard_time_series :
    ListTensorboardTimeSeriesRequest -> World
    -> result (list TensorboardTimeSeries) * World;
  (** [str(uuid.uuid4())]: the random source lives in the world too. *)
  uuid4 : World -> string * World
}.
Arguments create_tensorboard_run {World} _ _ _ _ _.
Arguments list_tensorboard_runs {World} _ _ _.
Arguments create_tensorboard_time_series {World} _ _ _ _.
Arguments list_tensorboard_time_series {World} _ _ _.
Arguments uuid4 {World} _ _.

Record Env (World : Type) : Type := mkEnv {
  world : World;
  calls : list ApiCall
}.
Arguments mkEnv {World} _ _.
Arguments world {World} _.
Arguments calls {World} _.

(** ** State and exception monad *)

Definition M (S A : Type) : Type := S -> result A * S.

Definition ret {S A} (a : A) : M S A := fun s => (Ok a, s).

Definition raise {S A} (e : exn) : M S A := fun s => (Raise e, s).

Definition bind {S A B} (m : M S A) (k : A -> M S B) : M S B :=
  fun s => match m s with
           | (Ok a, s') => k a s'
           | (Raise e, s') => (Raise e, s')
           end.

(** [try: m except: h] *)
Definition try_except {S A} (m : M S A) (h : exn -> M S A) : M S A :=
  fun s => match m s with
           | (Ok a, s') => (Ok a, s')
           | (Raise e, s') => h e s'
           end.

Notation "'let!' x ':=' m 'in' k" := (bind m (fun x => k))
  (at level 10, x name, m at level 100, k at level 200).

(** A computation on the environment, run from a method of an object
    of type [O]. *)
Definition with_env {O World A} (m : M (Env World) A) : M (O * Env World) A :=
  fun s => let '(r, e') := m (snd s) in (r, (fst s, e')).

Definition get_self {O E} : M (O * E) O := fun s => (Ok (fst s), s).

Definition set_self {O E} (o : O) : M (O * E) unit := fun s => (Ok tt, (o, snd s)).

(** A remote procedure call: logged, then performed. *)
Definition rpc {World A} (c : ApiCall) (f : World -> result A * World)
  : M (Env World) A :=
  fun e => let '(r, w') := f (world e) in (r, mkEnv w' (calls e ++ [c])).

Definition draw {World A} (f : World -> A * World) : M (Env World) A :=
  fun e => let '(a, w') := f (world e) in (Ok a, mkEnv w' (calls e)).

(** ** OnePlatformResourceManager *)

Record OnePlatformResourceManager : Type := mkOnePlatform {
  _experiment_resource_name : string;
  _run_name_to_run_resource_name : gmap string string;
  _run_tag_name_to_time_series_name : gmap (string * string) string
}.

(** [OnePlatformResourceManager.__init__] *)
Definition OnePlatformResourceManager_init (experiment_resource_name : string)
  : OnePlatformResourceManager :=
  mkOnePlatform experiment_resource_name ∅ ∅.

(** The loop of [_create_or_get_run_resource]
    [for tb_run in runs_pages: if tb_run.display_name == run_name: break]:
    the value of the loop variable [tb_run] when the loop is left.  The
    variable keeps the value it had before the loop when nothing is
    yielded. *)
Fixpoint scan_runs (run_name : string) (runs_pages : list TensorboardRun)
  (tb_run : TensorboardRun) : TensorboardRun :=
  match runs_pages with
  | [] => tb_run
  | r :: rest =>
      if PyStr.eqb (tbr_display_name r) run_name then r
      else scan_runs run_name rest r
  end.

(** The loop of [_create_or_get_time_series] and [get_or_create]
    [for ts in list_of_time_series: num += 1; if num > 1: break;
     time_series = ts]: the values of [num] and [time_series] when the
    loop is left. *)
Fixpoint scan_time_series (list_of_time_series : list TensorboardTimeSeries)
  (num : nat) (time_series : option TensorboardTimeSeries)
  : nat * option TensorboardTimeSeries :=
  match list_of_time_series with
  | [] => (num, time_series)
  | ts :: rest =>
      let num := num + 1 in
      if Nat.ltb 1 num then (num, time_series)
      else scan_time_series rest num (Some ts)
  end.

Definition run_not_found_msg (run_name : string) : string :=
  "Run with name " ++ run_name ++ " already exists but is not resource list.".

Definition ts_not_found_msg (tag_name : string) : string :=
  "Could not find time series resource with display name: " ++ tag_name.

Definition ts_ambiguous_msg (tag_name : string) : string :=
  "More than one time series resource found with display_name: " ++ tag_name.

(** [filter="display_name = {}".format(json.dumps(str(tag_name)))] *)
Definition display_name_filter (tag_name : string) : string :=
  "display_name = " ++ PyStr.json_dumps tag_name.

(** ** TimeSeriesResourceManager *)

Record TimeSeriesResourceManager : Type := mkTimeSeriesManager {
  _run_resource_id : string;
  _tag_to_time_series_proto : gmap string TensorboardTimeSeries
}.

(** [TimeSeriesResourceManager.__init__] *)
Definition TimeSeriesResourceManager_init (run_resource_id : string)
  : TimeSeriesResourceManager :=
  mkTimeSeriesManager run_resource_id ∅.

Section Managers.

Context {World : Type}.
Variable _api : TensorboardServiceClient World.

(** The body shared, word for word, by
  [OnePlatformResourceManager._create_or_get_time_series] and by the
  part of [TimeSeriesResourceManager.get_or_create] between the
  cache test and the cache write; [parent] is [run_resource_name]
  in the former and [self._run_resource_id] in the latter. *)
Definition create_or_get_time_series_body (parent tag_name : string)
  (time_series_resource_creator : unit -> TensorboardTimeSeries)
  : M (Env World) TensorboardTimeSeries :=
  let time_series := time_series_resource_creator tt in
  let time_series := ts_set_display_name time_series tag_name in
  try_except
  (rpc (CreateTensorboardTimeSeries parent time_series)
       (create_tensorboard_time_series _api parent time_series))
  (fun e =>
     match e with
     | InvalidArgument message =>
         if PyStr.contains "already exist" message then
           let request := mkListTSRequest parent (display_name_filter tag_name) in
           let! list_of_time_series :=
             rpc (ListTensorboardTimeSeries request)
                 (list_tensorboard_time_series _api request) in
           let '(num, time_series) := scan_time_series list_of_time_series 0 None in
           match time_series with
           | None => raise (ExistingResourceNotFoundError (ts_not_found_msg tag_name))
           | Some ts =>
               if negb (ts_bool ts) then
                 raise (ExistingResourceNotFoundError (ts_not_found_msg tag_name))
               else if negb (Nat.eqb num 1) then
                 raise (ValueError (ts_ambiguous_msg tag_name))
               else ret ts
           end
         else raise e
     | _ => raise e
     end).

(** [OnePlatformResourceManager._create_or_get_run_resource] *)
Definition _create_or_get_run_resource (run_name : string)
  : M (OnePlatformResourceManager * Env World) TensorboardRun :=
  let! self := get_self in
  let tb_run := TensorboardRun_new in
  let tb_run := run_set_display_name tb_run run_name in
  with_env
  (try_except
     (let! tensorboard_run_id := draw (uuid4 _api) in
      rpc (CreateTensorboardRun (_experiment_resource_name self) tb_run
                                tensorboard_run_id)
          (create_tensorboard_run _api (_experiment_resource_name self) tb_run
                                  tensorboard_run_id))
     (fun e =>
        match e with
        | InvalidArgument message =>
            if PyStr.contains "already exist" message then
              let! runs_pages :=
                rpc (ListTensorboardRuns (_experiment_resource_name self))
                    (list_tensorboard_runs _api (_experiment_resource_name self)) in
              let tb_run := scan_runs run_name runs_pages tb_run in
              if negb (PyStr.eqb (tbr_display_name tb_run) run_name) then
                raise (ExistingResourceNotFoundError (run_not_found_msg run_name))
              else ret tb_run
            else raise e
        | _ => raise e
        end)).

(** [self._run_name_to_run_resource_name[run_name]] *)
Definition run_cache_subscript (run_name : string)
  : M (OnePlatformResourceManager * Env World) string :=
  let! self := get_self in
  match _run_name_to_run_resource_name self !! run_name with
  | Some v => ret v
  | None => raise KeyError
  end.

(** [OnePlatformResourceManager.get_run_resource_name] *)
Definition get_run_resource_name (run_name : string)
  : M (OnePlatformResourceManager * Env World) string :=
  let! self := get_self in
  let! _ :=
  if negb (bool_decide (is_Some (_run_name_to_run_resource_name self !! run_name)))
  then
    let! tb_run := _create_or_get_run_resource run_name in
    let! self := get_self in
    set_self (mkOnePlatform
                (_experiment_resource_name self)
                (<[run_name := tbr_name tb_run]> (_run_name_to_run_resource_name self))
                (_run_tag_name_to_time_series_name self))
  else ret tt in
  run_cache_subscript run_name.

(** [OnePlatformResourceManager._create_or_get_time_series] *)
Definition _create_or_get_time_series (run_resource_name tag_name : string)
  (time_series_resource_creator : unit -> TensorboardTimeSeries)
  : M (OnePlatformResourceManager * Env World) TensorboardTimeSeries :=
  with_env (create_or_get_time_series_body run_resource_name tag_name
                                         time_series_resource_creator).

(** [self._run_tag_name_to_time_series_name[(run_name, tag_name)]] *)
Definition time_series_cache_subscript (run_name tag_name : string)
  : M (OnePlatformResourceManager * Env World) string :=
  let! self := get_self in
  match _run_tag_name_to_time_series_name self !! (run_name, tag_name) with
  | Some v => ret v
  | None => raise KeyError
  end.

(** [OnePlatformResourceManager.get_time_series_resource_name] *)
Definition get_time_series_resource_name (run_name tag_name : string)
  (time_series_resource_creator : unit -> TensorboardTimeSeries)
  : M (OnePlatformResourceManager * Env World) string :=
  let! self := get_self in
  let! _ :=
  if negb (bool_decide
             (is_Some (_run_tag_name_to_time_series_name self !! (run_name, tag_name))))
  then
    let! run_resource_name := get_run_resource_name run_name in
    let! time_series :=
      _create_or_get_time_series run_resource_name tag_name
                                 time_series_resource_creator in
    let! self := get_self in
    set_self (mkOnePlatform
                (_experiment_resource_name self)
                (_run_name_to_run_resource_name self)
                (<[(run_name, tag_name) := ts_name time_series]>
                   (_run_tag_name_to_time_series_name self)))
  else ret tt in
  time_series_cache_subscript run_name tag_name.

(** [TimeSeriesResourceManager.get_or_create] *)
Definition get_or_create (tag_name : string)
  (time_series_resource_creator : unit -> TensorboardTimeSeries)
  : M (TimeSeriesResourceManager * Env World) TensorboardTimeSeries :=
  let! self := get_self in
  match _tag_to_time_series_proto self !! tag_name with
  | Some time_series => ret time_series
  | None =>
    let! time_series :=
      with_env (create_or_get_time_series_body (_run_resource_id self) tag_name
                                               time_series_resource_creator) in
    let! self := get_self in
    let! _ :=
      set_self (mkTimeSeriesManager
                  (_run_resource_id self)
                  (<[tag_name := time_series]> (_tag_to_time_series_proto self))) in
    ret time_series
  end.

End Managers.

Arguments _create_or_get_run_resource {World} _api run_name _.
Arguments get_run_resource_name {World} _api run_name _.
Arguments _create_or_get_time_series {World} _api _ _ _ _.
Arguments get_time_series_resource_name {World} _api _ _ _ _.
Arguments get_or_create {World} _api _ _ _.
Arguments create_or_get_time_series_body {World} _api _ _ _ _.

(** ** A scripted client

    A client whose replies are fixed in advance, one per call, as a
    test double is set up: the world is the script that is left. A
    call that finds no reply of its kind raises [Unavailable]. *)

Module Scripted.

Inductive Reply : Type :=
| ReplyRun (r : result TensorboardRun)
| ReplyRuns (r : result (list TensorboardRun))
| ReplyTimeSeries (r : result TensorboardTimeSeries)
| ReplyTimeSeriesList (r : result (list TensorboardTimeSeries)).

Definition Script : Type := list Reply.

Definition unavailable {A} : result A := Raise (OtherError "Unavailable" "no reply").

Definition client : TensorboardServiceClient Script :=
  mkClient Script
  (fun _ _ _ w => match w with
                  | ReplyRun r :: w' => (r, w')
                  | _ => (unavailable, w)
                  end)
  (fun _ w => match w with
              | ReplyRuns r :: w' => (r, w')
              | _ => (unavailable, w)
              end)
  (fun _ _ w => match w with
                | ReplyTimeSeries r :: w' => (r, w')
                | _ => (unavailable, w)
                end)
  (fun _ w => match w with
              | ReplyTimeSeriesList r :: w' => (r, w')
              | _ => (unavailable, w)
              end)
  (fun w => ("7c9e6679-7425-40de-944b-e07fc1f90ae7", w)).

Definition env (script : Script) : Env Script := mkEnv script [].

Definition conflict : exn :=
  InvalidArgument "TensorboardRun with display name already exist".

Definition scalar_creator (_ : unit) : TensorboardTimeSeries :=
  mkTimeSeries EmptyString EmptyString EmptyString SCALAR "scalars".

Definition run (name display_name : string) : TensorboardRun :=
  mkRun name display_name EmptyString.

Definition series (name display_name : string) : TensorboardTimeSeries :=
  mkTimeSeries name display_name EmptyString SCALAR "scalars".

(** An error about malformed input whose message happens to contain
    the words the [except] clauses look for. *)
Definition malformed : exn :=
  InvalidArgument "display_name is malformed: it must not already exist as a reserved word".

Definition too_long : exn := InvalidArgument "display_name is too long".

(** A manager of the experiment [experiments/e1] and a manager of the
    run [runs/1], both new, in front of a script. *)
Definition fresh (script : Script) : OnePlatformResourceManager * Env Script :=
  (OnePlatformResourceManager_init "experiments/e1", env script).

Definition fresh_tags (script : Script) : TimeSeriesResourceManager * Env Script :=
  (TimeSeriesResourceManager_init "runs/1", env script).

End Scripted.

(** ** Vocabulary of the statements *)

(** The test of the [except] clauses: the error is an [InvalidArgument]
    whose message contains [already exist]. *)
Definition is_conflict (e : exn) : bool :=
  match e with
  | InvalidArgument message => PyStr.contains "already exist" message
  | _ => false
  end.

(** The same test as a proposition. *)
Definition says_already_exist (e : exn) : Prop :=
  exists message,
    e = InvalidArgument message /\ PyStr.contains "already exist" message = true.

(** The draft a run is created from. *)
Definition run_draft (run_name : string) : TensorboardRun :=
  run_set_display_name TensorboardRun_new run_name.

(** The draft a time series is created from. *)
Definition ts_draft (creator : unit -> TensorboardTimeSeries) (tag_name : string)
  : TensorboardTimeSeries :=
  ts_set_display_name (creator tt) tag_name.

Definition ts_request (parent tag_name : string) : ListTensorboardTimeSeriesRequest :=
  mkListTSRequest parent (display_name_filter tag_name).

(** What the time-series fallback makes of a listing. *)
Definition ts_outcome (tag_name : string) (l : list TensorboardTimeSeries)
  : result TensorboardTimeSeries :=
  match l with
  | [] => Raise (ExistingResourceNotFoundError (ts_not_found_msg tag_name))
  | ts :: rest =>
      if ts_bool ts then
        match rest with
        | [] => Ok ts
        | _ :: _ => Raise (ValueError (ts_ambiguous_msg tag_name))
        end
      else Raise (ExistingResourceNotFoundError (ts_not_found_msg tag_name))
  end.

(** The runs of a listing that carry the display name. *)
Definition matching_runs (run_name : string) (l : list TensorboardRun)
  : list TensorboardRun :=
  List.filter (fun r => PyStr.eqb (tbr_display_name r) run_name) l.

(** What the run fallback makes of a listing. *)
Definition run_outcome (run_name : string) (l : list TensorboardRun)
  : result TensorboardRun :=
  match l with
  | [] => Ok (run_draft run_name)
  | _ :: _ =>
      match matching_runs run_name l with
      | r :: _ => Ok r
      | [] => Raise (ExistingResourceNotFoundError (run_not_found_msg run_name))
      end
  end.


Definition is_create_call (c : ApiCall) : bool :=
  match c with
  | CreateTensorboardRun _ _ _ | CreateTensorboardTimeSeries _ _ => true
  | _ => false
  end.




Definition is_run_call (c : ApiCall) : bool :=
  match c with
  | CreateTensorboardRun _ _ _ | ListTensorboardRuns _ => true
  | _ => false
  end.

(** The parent a time-series call is made under. *)
Definition time_series_call_parent (c : ApiCall) : option string :=
  match c with
  | CreateTensorboardTimeSeries parent _ => Some parent
  | ListTensorboardTimeSeries request => Some (req_parent request)
  | _ => None
  end.

(** Requests a caller may send to one [OnePlatformResourceManager]. *)
Inductive Request : Type :=
| ResolveRun (run_name : string)
| ResolveTimeSeries (run_name tag_name : string)
                    (time_series_resource_creator : unit -> TensorboardTimeSeries).

(** The state a manager and its environment are left in by a request,
    whether it returned or raised. *)
Definition serve {World} (_api : TensorboardServiceClient World) (q : Request)
  (s : OnePlatformResourceManager * Env World) : OnePlatformResourceManager * Env World :=
  match q with
  | ResolveRun run_name => snd (get_run_resource_name _api run_name s)
  | ResolveTimeSeries run_name tag_name creator =>
      snd (get_time_series_resource_name _api run_name tag_name creator s)
  end.

Definition serve_all {World} (_api : TensorboardServiceClient World) (qs : list Request)
  (s : OnePlatformResourceManager * Env World) : OnePlatformResourceManager * Env World :=
  fold_left (fun s q => serve _api q s) qs s.

(** The same for one [TimeSeriesResourceManager]. *)
Definition serve_tag {World} (_api : TensorboardServiceClient World)
  (q : string * (unit -> TensorboardTimeSeries))
  (s : TimeSeriesResourceManager * Env World) : TimeSeriesResourceManager * Env World :=
  snd (get_or_create _api (fst q) (snd q) s).

Definition serve_tags {World} (_api : TensorboardServiceClient World)
  (qs : list (string * (unit -> TensorboardTimeSeries)))
  (s : TimeSeriesResourceManager * Env World) : TimeSeriesResourceManager * Env World :=
  fold_left (fun s q => serve_tag _api q s) qs s.

(** The manager after [self._run_name_to_run_resource_name[run_name] = ...] *)
Definition cache_run (self : OnePlatformResourceManager) (run_name resource_name : string)
  : OnePlatformResourceManager :=
  mkOnePlatform (_experiment_resource_name self)
                (<[run_name := resource_name]> (_run_name_to_run_resource_name self))
                (_run_tag_name_to_time_series_name self).

Definition cache_time_series (self : OnePlatformResourceManager)
  (run_name tag_name resource_name : string) : OnePlatformResourceManager :=
  mkOnePlatform (_experiment_resource_name self)
                (_run_name_to_run_resource_name self)
                (<[(run_name, tag_name) := resource_name]>
                   (_run_tag_name_to_time_series_name self)).

Definition cache_proto (self : TimeSeriesResourceManager) (tag_name : string)
  (time_series : TensorboardTimeSeries) : TimeSeriesResourceManager :=
  mkTimeSeriesManager (_run_resource_id self)
                      (<[tag_name := time_series]> (_tag_to_time_series_proto self)).

(** A manager that has only gained cache entries. *)
Definition grows (self self' : OnePlatformResourceManager) : Prop :=
  _experiment_resource_name self' = _experiment_resource_name self
  /\ _run_name_to_run_resource_name self ⊆ _run_name_to_run_resource_name self'
  /\ _run_tag_name_to_time_series_name self ⊆ _run_tag_name_to_time_series_name self'.

Definition grows_tags (self self' : TimeSeriesResourceManager) : Prop :=
  _run_resource_id self' = _run_resource_id self
  /\ _tag_to_time_series_proto self ⊆ _tag_to_time_series_proto self'.


(** ** Calls of [get_run_resource_name] in several threads

    The manager takes no lock, so a thread can be preempted between
    two statements of the method (it is, at the latest, when it blocks
    in a remote call).  A call in progress is at one of these points;
    a step runs it to the next one, on the manager and the environment
    the threads share. *)

Inductive RunCall : Type :=
| AtTest
| AtCreate
| AtList
| AtStore (tb_run : TensorboardRun)
| AtSubscript
| Finished (r : result string).

Definition run_call_step {World} (_api : TensorboardServiceClient World)
  (run_name : string) (pc : RunCall) (s : OnePlatformResourceManager * Env World)
  : RunCall * (OnePlatformResourceManager * Env World) :=
  let '(self, e) := s in
  let parent := _experiment_resource_name self in
  match pc with
  | AtTest =>
      if negb (bool_decide (is_Some (_run_name_to_run_resource_name self !! run_name)))
      then (AtCreate, s)
      else (AtSubscript, s)
  | AtCreate =>
      let '(id, w0) := uuid4 _api (world e) in
      let c := CreateTensorboardRun parent (run_draft run_name) id in
      match create_tensorboard_run _api parent (run_draft run_name) id w0 with
      | (Ok tb_run, w1) => (AtStore tb_run, (self, mkEnv w1 (calls e ++ [c])))
      | (Raise ex, w1) =>
          (match ex with
           | InvalidArgument message =>
               if PyStr.contains "already exist" message then AtList
               else Finished (Raise ex)
           | _ => Finished (Raise ex)
           end, (self, mkEnv w1 (calls e ++ [c])))
      end
  | AtList =>
      match list_tensorboard_runs _api parent (world e) with
      | (Ok runs_pages, w2) =>
          let tb_run := scan_runs run_name runs_pages (run_draft run_name) in
          (if negb (PyStr.eqb (tbr_display_name tb_run) run_name)
           then Finished (Raise (ExistingResourceNotFoundError (run_not_found_msg run_name)))
           else AtStore tb_run,
           (self, mkEnv w2 (calls e ++ [ListTensorboardRuns parent])))
      | (Raise ex, w2) =>
          (Finished (Raise ex), (self, mkEnv w2 (calls e ++ [ListTensorboardRuns parent])))
      end
  | AtStore tb_run => (AtSubscript, (cache_run self run_name (tbr_name tb_run), e))
  | AtSubscript =>
      (Finished (match _run_name_to_run_resource_name self !! run_name with
                 | Some v => Ok v
                 | None => Raise KeyError
                 end), s)
  | Finished r => (Finished r, s)
  end.

(** One thread run on its own for [fuel] steps. *)
Fixpoint run_call_alone {World} (_api : TensorboardServiceClient World)
  (run_name : string) (fuel : nat) (pc : RunCall)
  (s : OnePlatformResourceManager * Env World)
  : RunCall * (OnePlatformResourceManager * Env World) :=
  match fuel with
  | O => (pc, s)
  | S fuel' =>
      let '(pc', s') := run_call_step _api run_name pc s in
      run_call_alone _api run_name fuel' pc' s'
  end.


(** ** Reading escapes back

    One step of the inverse of [PyStr.escape_all]: the character the
    first escape of a string stands for, and what follows it. *)

Definition hex_value (c : ascii) : option nat :=
  let n := nat_of_ascii c in
  if Nat.leb 48 n && Nat.leb n 57 then Some (n - 48)
  else if Nat.leb 97 n && Nat.leb n 102 then Some (n - 87)
  else None.

Definition unescape_head (s : string) : option (ascii * string) :=
  match s with
  | EmptyString => None
  | String c r =>
      if Nat.eqb (nat_of_ascii c) 92 then
        match r with
        | EmptyString => None
        | String d r' =>
            let n := nat_of_ascii d in
            if Nat.eqb n 34 then Some (PyStr.quote, r')
            else if Nat.eqb n 92 then Some (PyStr.backslash, r')
            else if Nat.eqb n 98 then Some ("008"%char, r')
            else if Nat.eqb n 102 then Some ("012"%char, r')
            else if Nat.eqb n 110 then Some ("010"%char, r')
            else if Nat.eqb n 114 then Some ("013"%char, r')
            else if Nat.eqb n 116 then Some ("009"%char, r')
            else if Nat.eqb n 117 then
              match r' with
              | String _ (String _ (String h (String l r''))) =>
                  match hex_value h, hex_value l with
                  | Some a, Some b => Some (ascii_of_nat (16 * a + b), r'')
                  | _, _ => None
                  end
              | _ => None
              end
            else None
        end
      else Some (c, r)
  end.

Definition printable_ascii (c : ascii) : bool :=
  Nat.leb 32 (nat_of_ascii c) && Nat.leb (nat_of_ascii c) 126.

Fixpoint printable (s : string) : bool :=
  match s with
  | EmptyString => true
  | String c s' => printable_ascii c && printable s'
  end.

(** ** get_source_bucket *)

(** A [storage.Bucket] object, told by its name. *)
Record Bucket : Type := mkBucket {
  bucket_name : string
}.

(** [s] without the literal [p] at its start, if it starts with it. *)
Fixpoint after_literal (p s : string) : option string :=
  match p with
  | EmptyString => Some s
  | String a p' =>
      match s with
      | EmptyString => None
      | String b s' => if Ascii.eqb a b then after_literal p' s' else None
      end
  end.

(** The group [(.*?)] before the lookahead [(?=\/|$)]: the fewest
    characters after which a slash follows or the string ends ([$]
    also holds before a line feed that ends the string); [.] does not
    take a line feed, so one that is met earlier makes the match
    fail. *)
Fixpoint bucket_group (s : string) : option string :=
  match s with
  | EmptyString => Some EmptyString
  | String c s' =>
      if Nat.eqb (nat_of_ascii c) 47 then Some EmptyString
      else if Nat.eqb (nat_of_ascii c) 10 then
        match s' with
        | EmptyString => Some EmptyString
        | String _ _ => None
        end
      else
        match bucket_group s' with
        | Some name => Some (String c name)
        | None => None
        end
  end.

(** [get_source_bucket].  [storage_bucket name] stands for
    [storage.Client().bucket(name)]: a call into the storage library,
    which returns the bucket or raises (no credentials, a name the
    library refuses).  It is made only when the pattern matches. *)
Definition get_source_bucket (storage_bucket : string -> result Bucket) (logdir : string)
  : result (option Bucket) :=
  match after_literal "gs://" logdir with
  | None => Ok None
  | Some rest =>
      match bucket_group rest with
      | None => Ok None
      | Some name =>
          match storage_bucket name with
          | Ok bucket => Ok (Some bucket)
          | Raise e => Raise e
          end
      end
  end.

(** What [get_source_bucket] makes of the answer of the storage
    library. *)
Definition bucket_or_error (r : result Bucket) : result (option Bucket) :=
  match r with
  | Ok bucket => Ok (Some bucket)
  | Raise e => Raise e
  end.

(** A storage library for the examples: it refuses the empty name and
    makes a bucket of any other. *)
Definition example_storage_bucket (name : string) : result Bucket :=
  match name with
  | EmptyString => Raise (OtherError "IndexError" "string index out of range")
  | String _ _ => Ok (mkBucket name)
  end.

(** Strings without slash and without line feed. *)
Fixpoint bucket_like (s : string) : bool :=
  match s with
  | EmptyString => true
  | String c s' =>
      negb (Nat.eqb (nat_of_ascii c) 47) && negb (Nat.eqb (nat_of_ascii c) 10)
      && bucket_like s'
  end.

(** The parent a logged call is made under. *)
Definition call_parent (c : ApiCall) : string :=
  match c with
  | CreateTensorboardRun parent _ _ => parent
  | ListTensorboardRuns parent => parent
  | CreateTensorboardTimeSeries parent _ => parent
  | ListTensorboardTimeSeries request => req_parent request
  end.

(** A call made where a manager of [experiment] that has resolved the
    runs [runs] may make it: a run call under the experiment, a
    time-series call under one of the resolved runs. *)
Definition call_under (experiment : string) (runs : gmap string string) (c : ApiCall)
  : Prop :=
  if is_run_call c then call_parent c = experiment
  else exists run_name, runs !! run_name = Some (call_parent c).

(** * Properties *)

(** ** The loops *)

Lemma scan_time_series_from_one (l : list TensorboardTimeSeries) ts :
  l <> [] -> scan_time_series l 1 (Some ts) = (2, Some ts).
Proof. destruct l as [|x l]; [congruence | reflexivity]. Qed.

Lemma scan_time_series_eq (l : list TensorboardTimeSeries) :
  scan_time_series l 0 None =
  match l with
  | [] => (0, None)
  | [ts] => (1, Some ts)
  | ts :: _ :: _ => (2, Some ts)
  end.
Proof. destruct l as [|x [|y l]]; reflexivity. Qed.

Lemma scan_runs_no_match run_name (l : list TensorboardRun) tb_run :
  matching_runs run_name l = [] -> l <> [] ->
  In (scan_runs run_name l tb_run) l.
Proof.
  revert tb_run. induction l as [|r l IH]; intros tb_run Hm Hne; [congruence|].
  unfold matching_runs in *. simpl in *.
  destruct (PyStr.eqb (tbr_display_name r) run_name); [discriminate|].
  destruct l as [|x l]; [left; reflexivity|].
  right. apply IH; [assumption | discriminate].
Qed.

Lemma scan_runs_match run_name (l : list TensorboardRun) tb_run r rest :
  matching_runs run_name l = r :: rest ->
  scan_runs run_name l tb_run = r.
Proof.
  revert tb_run. induction l as [|x l IH]; intros tb_run Hm; [discriminate|].
  unfold matching_runs in *. simpl in *.
  destruct (PyStr.eqb (tbr_display_name x) run_name).
  - congruence.
  - eauto.
Qed.

Lemma matching_runs_display_name run_name (l : list TensorboardRun) r :
  In r (matching_runs run_name l) -> tbr_display_name r = run_name.
Proof.
  unfold matching_runs. rewrite filter_In. intros [_ H].
  unfold PyStr.eqb in H. apply bool_decide_eq_true in H. exact H.
Qed.

Lemma scan_runs_no_match_display_name run_name (l : list TensorboardRun) tb_run :
  matching_runs run_name l = [] -> l <> [] ->
  tbr_display_name (scan_runs run_name l tb_run) <> run_name.
Proof.
  intros Hm Hne Heq.
  pose proof (scan_runs_no_match run_name l tb_run Hm Hne) as Hin.
  assert (Hf : In (scan_runs run_name l tb_run) (matching_runs run_name l)).
  { unfold matching_runs. apply filter_In. split; [exact Hin|].
    unfold PyStr.eqb. apply bool_decide_eq_true. exact Heq. }
  rewrite Hm in Hf. destruct Hf.
Qed.

(** ** The methods, call by call *)

Section Semantics.

Context {World : Type}.
Variable _api : TensorboardServiceClient World.

Lemma ts_fallback_eq tag_name (l : list TensorboardTimeSeries) (e : Env World) :
  (let '(num, time_series) := scan_time_series l 0 None in
   match time_series with
   | None => raise (ExistingResourceNotFoundError (ts_not_found_msg tag_name))
   | Some ts =>
     if negb (ts_bool ts) then
       raise (ExistingResourceNotFoundError (ts_not_found_msg tag_name))
     else if negb (Nat.eqb num 1) then
       raise (ValueError (ts_ambiguous_msg tag_name))
     else ret ts
   end) e = (ts_outcome tag_name l, e).
Proof.
  rewrite scan_time_series_eq.
  destruct l as [|x [|y l]]; simpl; try reflexivity;
  destruct (ts_bool x); reflexivity.
Qed.

Lemma create_or_get_time_series_body_eq parent tag_name creator (e : Env World) :
  create_or_get_time_series_body _api parent tag_name creator e =
  let c := CreateTensorboardTimeSeries parent (ts_draft creator tag_name) in
  let q := ListTensorboardTimeSeries (ts_request parent tag_name) in
  match create_tensorboard_time_series _api parent (ts_draft creator tag_name) (world e) with
  | (Ok ts, w1) => (Ok ts, mkEnv w1 (calls e ++ [c]))
  | (Raise ex, w1) =>
    if is_conflict ex then
      match list_tensorboard_time_series _api (ts_request parent tag_name) w1 with
      | (Ok l, w2) => (ts_outcome tag_name l, mkEnv w2 ((calls e ++ [c]) ++ [q]))
      | (Raise ex', w2) => (Raise ex', mkEnv w2 ((calls e ++ [c]) ++ [q]))
      end
    else (Raise ex, mkEnv w1 (calls e ++ [c]))
  end.
Proof.
  unfold create_or_get_time_series_body, try_except, rpc, ts_draft, ts_request. simpl.
  destruct (create_tensorboard_time_series _api parent _ (world e)) as [[ts|ex] w1];
  [reflexivity|].
  destruct ex as [message| | | |]; simpl; try reflexivity.
  destruct (PyStr.contains "already exist" message); [|reflexivity].
  unfold bind, rpc. simpl.
  destruct (list_tensorboard_time_series _api _ w1) as [[l|ex'] w2]; [|reflexivity].
  apply ts_fallback_eq.
Qed.

Lemma run_fallback_eq run_name (l : list TensorboardRun) :
  (if negb (PyStr.eqb (tbr_display_name (scan_runs run_name l (run_draft run_name)))
                    run_name)
   then Raise (ExistingResourceNotFoundError (run_not_found_msg run_name))
   else Ok (scan_runs run_name l (run_draft run_name)))
  = run_outcome run_name l.
Proof.
  unfold run_outcome. destruct l as [|x l].
  - simpl. unfold PyStr.eqb. rewrite bool_decide_eq_true_2 by reflexivity. reflexivity.
  - destruct (matching_runs run_name (x :: l)) as [|r rest] eqn:Hm.
  + pose proof (scan_runs_no_match_display_name run_name (x :: l)
                  (run_draft run_name) Hm) as Hne.
    unfold PyStr.eqb. rewrite bool_decide_eq_false_2; [reflexivity|].
    apply Hne. discriminate.
  + rewrite (scan_runs_match _ _ _ _ _ Hm).
    assert (Hd : tbr_display_name r = run_name).
    { apply (matching_runs_display_name run_name (x :: l)). rewrite Hm. left. reflexivity. }
    unfold PyStr.eqb. rewrite bool_decide_eq_true_2 by exact Hd. reflexivity.
Qed.

Lemma _create_or_get_run_resource_eq run_name self (e : Env World) :
  _create_or_get_run_resource _api run_name (self, e) =
  let parent := _experiment_resource_name self in
  let id := fst (uuid4 _api (world e)) in
  let c := CreateTensorboardRun parent (run_draft run_name) id in
  let q := ListTensorboardRuns parent in
  match create_tensorboard_run _api parent (run_draft run_name) id
        (snd (uuid4 _api (world e))) with
  | (Ok r, w1) => (Ok r, (self, mkEnv w1 (calls e ++ [c])))
  | (Raise ex, w1) =>
    if is_conflict ex then
      match list_tensorboard_runs _api parent w1 with
      | (Ok l, w2) => (run_outcome run_name l, (self, mkEnv w2 ((calls e ++ [c]) ++ [q])))
      | (Raise ex', w2) => (Raise ex', (self, mkEnv w2 ((calls e ++ [c]) ++ [q])))
      end
    else (Raise ex, (self, mkEnv w1 (calls e ++ [c])))
  end.
Proof.
  unfold _create_or_get_run_resource, bind, get_self, with_env, try_except, draw, rpc.
  simpl. fold (run_draft run_name).
  destruct (uuid4 _api (world e)) as [id w0]. simpl.
  destruct (create_tensorboard_run _api _ _ id w0) as [[r|ex] w1]; [reflexivity|].
  destruct ex as [message| | | |]; simpl; try reflexivity.
  destruct (PyStr.contains "already exist" message); [|reflexivity].
  cbn [world calls].
  destruct (list_tensorboard_runs _api _ w1) as [[l|ex'] w2]; [|reflexivity].
  simpl. rewrite <- run_fallback_eq.
  destruct (negb _); reflexivity.
Qed.

Lemma get_run_resource_name_hit run_name self (e : Env World) v :
  _run_name_to_run_resource_name self !! run_name = Some v ->
  get_run_resource_name _api run_name (self, e) = (Ok v, (self, e)).
Proof.
  intros H. unfold get_run_resource_name, run_cache_subscript, bind, get_self, ret. simpl.
  rewrite H. rewrite bool_decide_eq_true_2 by eauto. simpl. rewrite H. reflexivity.
Qed.

Lemma get_run_resource_name_miss run_name self (e : Env World) :
  _run_name_to_run_resource_name self !! run_name = None ->
  get_run_resource_name _api run_name (self, e) =
  match _create_or_get_run_resource _api run_name (self, e) with
  | (Ok tb_run, (self', e')) =>
    (Ok (tbr_name tb_run), (cache_run self' run_name (tbr_name tb_run), e'))
  | (Raise ex, s') => (Raise ex, s')
  end.
Proof.
  intros H. unfold get_run_resource_name, run_cache_subscript, bind, get_self, set_self, ret.
  simpl. rewrite H.
  rewrite bool_decide_eq_false_2 by (intros [x Hx]; discriminate). simpl.
  destruct (_create_or_get_run_resource _api run_name (self, e)) as [[tb_run|ex] [self' e']];
  [|reflexivity].
  simpl. rewrite lookup_insert_eq. reflexivity.
Qed.

Lemma get_time_series_resource_name_hit run_name tag_name creator self (e : Env World) v :
  _run_tag_name_to_time_series_name self !! (run_name, tag_name) = Some v ->
  get_time_series_resource_name _api run_name tag_name creator (self, e) = (Ok v, (self, e)).
Proof.
  intros H.
  unfold get_time_series_resource_name, time_series_cache_subscript, bind, get_self, ret.
  simpl. rewrite H. rewrite bool_decide_eq_true_2 by eauto. simpl. rewrite H. reflexivity.
Qed.

Lemma get_time_series_resource_name_miss run_name tag_name creator self (e : Env World) :
  _run_tag_name_to_time_series_name self !! (run_name, tag_name) = None ->
  get_time_series_resource_name _api run_name tag_name creator (self, e) =
  match get_run_resource_name _api run_name (self, e) with
  | (Ok run_resource_name, (self1, e1)) =>
    match create_or_get_time_series_body _api run_resource_name tag_name creator e1 with
    | (Ok ts, e2) =>
        (Ok (ts_name ts), (cache_time_series self1 run_name tag_name (ts_name ts), e2))
    | (Raise ex, e2) => (Raise ex, (self1, e2))
    end
  | (Raise ex, s1) => (Raise ex, s1)
  end.
Proof.
  intros H.
  unfold get_time_series_resource_name, time_series_cache_subscript, bind, get_self,
  set_self, ret, _create_or_get_time_series, with_env.
  simpl. rewrite H.
  rewrite bool_decide_eq_false_2 by (intros [x Hx]; discriminate). simpl.
  destruct (get_run_resource_name _api run_name (self, e)) as [[rrn|ex] [self1 e1]];
  [|reflexivity].
  simpl.
  destruct (create_or_get_time_series_body _api rrn tag_name creator e1) as [[ts|ex] e2];
  [|reflexivity].
  simpl. rewrite lookup_insert_eq. reflexivity.
Qed.

Lemma get_or_create_hit tag_name creator self (e : Env World) v :
  _tag_to_time_series_proto self !! tag_name = Some v ->
  get_or_create _api tag_name creator (self, e) = (Ok v, (self, e)).
Proof.
  intros H. unfold get_or_create, bind, get_self, ret. simpl. rewrite H. reflexivity.
Qed.

Lemma get_or_create_miss tag_name creator self (e : Env World) :
  _tag_to_time_series_proto self !! tag_name = None ->
  get_or_create _api tag_name creator (self, e) =
  match create_or_get_time_series_body _api (_run_resource_id self) tag_name creator e with
  | (Ok ts, e1) => (Ok ts, (cache_proto self tag_name ts, e1))
  | (Raise ex, e1) => (Raise ex, (self, e1))
  end.
Proof.
  intros H. unfold get_or_create, bind, get_self, set_self, ret, with_env. simpl.
  rewrite H. simpl.
  destruct (create_or_get_time_series_body _api _ tag_name creator e) as [[ts|ex] e1];
  reflexivity.
Qed.

End Semantics.

(** ** Cache hits, cache misses and what a call leaves behind *)

Section Resolution.

Context {World : Type}.
Variable _api : TensorboardServiceClient World.

Lemma grows_refl self : grows self self.
Proof. repeat split; reflexivity. Qed.

Lemma grows_trans a b c : grows a b -> grows b c -> grows a c.
Proof.
  intros (H1 & H2 & H3) (K1 & K2 & K3). repeat split.
  - congruence.
  - etrans; eassumption.
  - etrans; eassumption.
Qed.

Lemma grows_cache_run self run_name v :
  _run_name_to_run_resource_name self !! run_name = None ->
  grows self (cache_run self run_name v).
Proof.
  intros H. repeat split; simpl; [|reflexivity].
  apply insert_subseteq. exact H.
Qed.

Lemma grows_cache_time_series self run_name tag_name v :
  _run_tag_name_to_time_series_name self !! (run_name, tag_name) = None ->
  grows self (cache_time_series self run_name tag_name v).
Proof.
  intros H. repeat split; simpl; [reflexivity|].
  apply insert_subseteq. exact H.
Qed.

Lemma _create_or_get_run_resource_self run_name self (e : Env World) :
  fst (snd (_create_or_get_run_resource _api run_name (self, e))) = self.
Proof.
  rewrite _create_or_get_run_resource_eq. simpl.
  destruct (create_tensorboard_run _api _ _ _ _) as [[r|ex] w1]; [reflexivity|].
  destruct (is_conflict ex); [|reflexivity].
  destruct (list_tensorboard_runs _api _ w1) as [[l|ex'] w2]; reflexivity.
Qed.

(** The whole of [get_run_resource_name] on a miss. *)
Lemma get_run_resource_name_miss_eq run_name self (e : Env World) :
  _run_name_to_run_resource_name self !! run_name = None ->
  get_run_resource_name _api run_name (self, e) =
  let parent := _experiment_resource_name self in
  let id := fst (uuid4 _api (world e)) in
  let c := CreateTensorboardRun parent (run_draft run_name) id in
  let q := ListTensorboardRuns parent in
  match create_tensorboard_run _api parent (run_draft run_name) id
        (snd (uuid4 _api (world e))) with
  | (Ok r, w1) =>
    (Ok (tbr_name r), (cache_run self run_name (tbr_name r), mkEnv w1 (calls e ++ [c])))
  | (Raise ex, w1) =>
    if is_conflict ex then
      match list_tensorboard_runs _api parent w1 with
      | (Ok l, w2) =>
          match run_outcome run_name l with
          | Ok r => (Ok (tbr_name r),
                     (cache_run self run_name (tbr_name r),
                      mkEnv w2 ((calls e ++ [c]) ++ [q])))
          | Raise ex' => (Raise ex', (self, mkEnv w2 ((calls e ++ [c]) ++ [q])))
          end
      | (Raise ex', w2) => (Raise ex', (self, mkEnv w2 ((calls e ++ [c]) ++ [q])))
      end
    else (Raise ex, (self, mkEnv w1 (calls e ++ [c])))
  end.
Proof.
  intros H. rewrite (get_run_resource_name_miss _ _ _ _ H).
  rewrite _create_or_get_run_resource_eq. simpl.
  destruct (create_tensorboard_run _api _ _ _ _) as [[r|ex] w1]; [reflexivity|].
  destruct (is_conflict ex); [|reflexivity].
  destruct (list_tensorboard_runs _api _ w1) as [[l|ex'] w2]; [|reflexivity].
  destruct (run_outcome run_name l); reflexivity.
Qed.

(** A call of [get_run_resource_name] only adds to the caches, and
  leaves the manager as it was when it raises. *)
Lemma get_run_resource_name_grows run_name s :
  grows (fst s) (fst (snd (get_run_resource_name _api run_name s))).
Proof.
  destruct s as [self e]. simpl.
  destruct (_run_name_to_run_resource_name self !! run_name) as [v|] eqn:H.
  - rewrite (get_run_resource_name_hit _ _ _ _ _ H). apply grows_refl.
  - rewrite (get_run_resource_name_miss_eq _ _ _ H). simpl.
  destruct (create_tensorboard_run _api _ _ _ _) as [[r|ex] w1]; simpl.
  { apply grows_cache_run, H. }
  destruct (is_conflict ex); [|apply grows_refl].
  destruct (list_tensorboard_runs _api _ w1) as [[l|ex'] w2]; [|apply grows_refl].
  destruct (run_outcome run_name l); simpl; [apply grows_cache_run, H | apply grows_refl].
Qed.

Lemma get_run_resource_name_raise_self run_name s ex s' :
  get_run_resource_name _api run_name s = (Raise ex, s') -> fst s' = fst s.
Proof.
  destruct s as [self e]. simpl.
  destruct (_run_name_to_run_resource_name self !! run_name) as [v|] eqn:H.
  - rewrite (get_run_resource_name_hit _ _ _ _ _ H). discriminate.
  - rewrite (get_run_resource_name_miss_eq _ _ _ H). simpl.
  destruct (create_tensorboard_run _api _ _ _ _) as [[r|ex0] w1]; [discriminate|].
  destruct (is_conflict ex0).
  + destruct (list_tensorboard_runs _api _ w1) as [[l|ex'] w2].
    * destruct (run_outcome run_name l); [discriminate|].
      intros [= <- <-]. reflexivity.
    * intros [= <- <-]. reflexivity.
  + intros [= <- <-]. reflexivity.
Qed.

(** A value returned by [get_run_resource_name] is the one the cache
  holds for the run name afterwards. *)
Lemma get_run_resource_name_ok_cached run_name s v s' :
  get_run_resource_name _api run_name s = (Ok v, s') ->
  _run_name_to_run_resource_name (fst s') !! run_name = Some v.
Proof.
  destruct s as [self e].
  destruct (_run_name_to_run_resource_name self !! run_name) as [v0|] eqn:H.
  - rewrite (get_run_resource_name_hit _ _ _ _ _ H). intros [= <- <-]. exact H.
  - rewrite (get_run_resource_name_miss_eq _ _ _ H). simpl.
  destruct (create_tensorboard_run _api _ _ _ _) as [[r|ex0] w1].
  { intros [= <- <-]. simpl. apply lookup_insert_eq. }
  destruct (is_conflict ex0); [|discriminate].
  destruct (list_tensorboard_runs _api _ w1) as [[l|ex'] w2]; [|discriminate].
  destruct (run_outcome run_name l); [|discriminate].
  intros [= <- <-]. simpl. apply lookup_insert_eq.
Qed.

(** [get_run_resource_name] does not touch the time-series cache. *)
Lemma get_run_resource_name_frame run_name s :
  _run_tag_name_to_time_series_name (fst (snd (get_run_resource_name _api run_name s)))
  = _run_tag_name_to_time_series_name (fst s).
Proof.
  destruct s as [self e]. simpl.
  destruct (_run_name_to_run_resource_name self !! run_name) as [v|] eqn:H.
  - rewrite (get_run_resource_name_hit _ _ _ _ _ H). reflexivity.
  - rewrite (get_run_resource_name_miss_eq _ _ _ H). simpl.
  destruct (create_tensorboard_run _api _ _ _ _) as [[r|ex] w1]; [reflexivity|].
  destruct (is_conflict ex); [|reflexivity].
  destruct (list_tensorboard_runs _api _ w1) as [[l|ex'] w2]; [|reflexivity].
  destruct (run_outcome run_name l); reflexivity.
Qed.

(** The same facts for [get_time_series_resource_name]. *)
Lemma get_time_series_resource_name_grows run_name tag_name creator s :
  grows (fst s)
      (fst (snd (get_time_series_resource_name _api run_name tag_name creator s))).
Proof.
  destruct s as [self e]. simpl.
  destruct (_run_tag_name_to_time_series_name self !! (run_name, tag_name)) as [v|] eqn:H.
  - rewrite (get_time_series_resource_name_hit _ _ _ _ _ _ _ H). apply grows_refl.
  - rewrite (get_time_series_resource_name_miss _ _ _ _ _ _ H).
  pose proof (get_run_resource_name_grows run_name (self, e)) as Hg.
  pose proof (get_run_resource_name_frame run_name (self, e)) as Hf.
  destruct (get_run_resource_name _api run_name (self, e)) as [[rrn|ex] [self1 e1]];
    simpl in *; [|exact Hg].
  destruct (create_or_get_time_series_body _api rrn tag_name creator e1) as [[ts|ex] e2];
    simpl; [|exact Hg].
  eapply grows_trans; [exact Hg|].
  apply grows_cache_time_series. rewrite Hf. exact H.
Qed.

Lemma get_time_series_resource_name_ok_cached run_name tag_name creator s v s' :
  get_time_series_resource_name _api run_name tag_name creator s = (Ok v, s') ->
  _run_tag_name_to_time_series_name (fst s') !! (run_name, tag_name) = Some v.
Proof.
  destruct s as [self e].
  destruct (_run_tag_name_to_time_series_name self !! (run_name, tag_name)) as [v0|] eqn:H.
  - rewrite (get_time_series_resource_name_hit _ _ _ _ _ _ _ H). intros [= <- <-]. exact H.
  - rewrite (get_time_series_resource_name_miss _ _ _ _ _ _ H).
  destruct (get_run_resource_name _api run_name (self, e)) as [[rrn|ex] [self1 e1]];
    [|discriminate].
  destruct (create_or_get_time_series_body _api rrn tag_name creator e1) as [[ts|ex] e2];
    [|discriminate].
  intros [= <- <-]. simpl. apply lookup_insert_eq.
Qed.

(** A failed call leaves the time-series cache as it was. *)
Lemma get_time_series_resource_name_raise_frame run_name tag_name creator s ex s' :
  get_time_series_resource_name _api run_name tag_name creator s = (Raise ex, s') ->
  _run_tag_name_to_time_series_name (fst s') = _run_tag_name_to_time_series_name (fst s).
Proof.
  destruct s as [self e].
  destruct (_run_tag_name_to_time_series_name self !! (run_name, tag_name)) as [v0|] eqn:H.
  - rewrite (get_time_series_resource_name_hit _ _ _ _ _ _ _ H). discriminate.
  - rewrite (get_time_series_resource_name_miss _ _ _ _ _ _ H).
  pose proof (get_run_resource_name_frame run_name (self, e)) as Hf.
  destruct (get_run_resource_name _api run_name (self, e)) as [[rrn|ex0] [self1 e1]];
    simpl in Hf.
  + destruct (create_or_get_time_series_body _api rrn tag_name creator e1)
      as [[ts|ex1] e2]; [discriminate|].
    intros [= <- <-]. exact Hf.
  + intros [= <- <-]. exact Hf.
Qed.

(** And for [get_or_create]. *)
Lemma get_or_create_grows tag_name creator s :
  grows_tags (fst s) (fst (snd (get_or_create _api tag_name creator s))).
Proof.
  destruct s as [self e]. simpl.
  destruct (_tag_to_time_series_proto self !! tag_name) as [v|] eqn:H.
  - rewrite (get_or_create_hit _ _ _ _ _ _ H). split; reflexivity.
  - rewrite (get_or_create_miss _ _ _ _ _ H).
  destruct (create_or_get_time_series_body _api _ tag_name creator e) as [[ts|ex] e1];
    simpl.
  + split; [reflexivity|]. simpl. apply insert_subseteq, H.
  + split; reflexivity.
Qed.

Lemma get_or_create_ok_cached tag_name creator s v s' :
  get_or_create _api tag_name creator s = (Ok v, s') ->
  _tag_to_time_series_proto (fst s') !! tag_name = Some v.
Proof.
  destruct s as [self e].
  destruct (_tag_to_time_series_proto self !! tag_name) as [v0|] eqn:H.
  - rewrite (get_or_create_hit _ _ _ _ _ _ H). intros [= <- <-]. exact H.
  - rewrite (get_or_create_miss _ _ _ _ _ H).
  destruct (create_or_get_time_series_body _api _ tag_name creator e) as [[ts|ex] e1];
    [|discriminate].
  intros [= <- <-]. simpl. apply lookup_insert_eq.
Qed.

Lemma get_or_create_raise_self tag_name creator s ex s' :
  get_or_create _api tag_name creator s = (Raise ex, s') -> fst s' = fst s.
Proof.
  destruct s as [self e].
  destruct (_tag_to_time_series_proto self !! tag_name) as [v0|] eqn:H.
  - rewrite (get_or_create_hit _ _ _ _ _ _ H). discriminate.
  - rewrite (get_or_create_miss _ _ _ _ _ H).
  destruct (create_or_get_time_series_body _api _ tag_name creator e) as [[ts|ex1] e1];
    [discriminate|].
  intros [= <- <-]. reflexivity.
Qed.

(** Any sequence of requests only adds to the caches. *)
Lemma serve_grows q s : grows (fst s) (fst (serve _api q s)).
Proof.
  destruct q as [run_name | run_name tag_name creator]; simpl.
  - apply get_run_resource_name_grows.
  - apply get_time_series_resource_name_grows.
Qed.

Lemma serve_all_grows qs s : grows (fst s) (fst (serve_all _api qs s)).
Proof.
  revert s. induction qs as [|q qs IH]; intros s; simpl.
  - apply grows_refl.
  - eapply grows_trans; [apply serve_grows | apply IH].
Qed.

Lemma serve_tags_grows qs s : grows_tags (fst s) (fst (serve_tags _api qs s)).
Proof.
  revert s. induction qs as [|q qs IH]; intros s; simpl.
  - split; reflexivity.
  - pose proof (get_or_create_grows (fst q) (snd q) s) as (H1 & H2).
  destruct (IH (serve_tag _api q s)) as (K1 & K2).
  split.
  + unfold serve_tag in *. congruence.
  + unfold serve_tag in *. etrans; eassumption.
Qed.

End Resolution.

(** ** The conflict fallback *)

Section Fallback.

Context {World : Type}.
Variable _api : TensorboardServiceClient World.


Lemma get_run_resource_name_propagates run_name self (e : Env World) id w0 ex w1 :
  _run_name_to_run_resource_name self !! run_name = None ->
  uuid4 _api (world e) = (id, w0) ->
  create_tensorboard_run _api (_experiment_resource_name self) (run_draft run_name) id w0
  = (Raise ex, w1) ->
  is_conflict ex = false ->
  get_run_resource_name _api run_name (self, e) =
  (Raise ex,
   (self, mkEnv w1 (calls e ++ [CreateTensorboardRun (_experiment_resource_name self)
                                                   (run_draft run_name) id]))).
Proof.
  intros Hmiss Hid Hc Hk. rewrite (get_run_resource_name_miss_eq _ _ _ _ Hmiss).
  rewrite Hid. simpl. rewrite Hc, Hk. reflexivity.
Qed.

Lemma get_run_resource_name_conflict run_name self (e : Env World) id w0 ex w1 r2 w2 :
  _run_name_to_run_resource_name self !! run_name = None ->
  uuid4 _api (world e) = (id, w0) ->
  create_tensorboard_run _api (_experiment_resource_name self) (run_draft run_name) id w0
  = (Raise ex, w1) ->
  is_conflict ex = true ->
  list_tensorboard_runs _api (_experiment_resource_name self) w1 = (r2, w2) ->
  get_run_resource_name _api run_name (self, e) =
  let e2 := mkEnv w2 (calls e ++ [CreateTensorboardRun (_experiment_resource_name self)
                                                     (run_draft run_name) id;
                                ListTensorboardRuns (_experiment_resource_name self)]) in
  match r2 with
  | Ok l =>
    match run_outcome run_name l with
    | Ok r => (Ok (tbr_name r), (cache_run self run_name (tbr_name r), e2))
    | Raise ex' => (Raise ex', (self, e2))
    end
  | Raise ex' => (Raise ex', (self, e2))
  end.
Proof.
  intros Hmiss Hid Hc Hk Hl. rewrite (get_run_resource_name_miss_eq _ _ _ _ Hmiss).
  rewrite Hid. simpl. rewrite Hc, Hk, Hl. rewrite <- app_assoc. reflexivity.
Qed.


Lemma create_or_get_time_series_body_propagates parent tag_name creator (e : Env World)
  ex w1 :
  create_tensorboard_time_series _api parent (ts_draft creator tag_name) (world e)
  = (Raise ex, w1) ->
  is_conflict ex = false ->
  create_or_get_time_series_body _api parent tag_name creator e =
  (Raise ex, mkEnv w1 (calls e ++ [CreateTensorboardTimeSeries parent
                                                             (ts_draft creator tag_name)])).
Proof.
  intros Hc Hk. rewrite create_or_get_time_series_body_eq. simpl. rewrite Hc, Hk.
  reflexivity.
Qed.

Lemma create_or_get_time_series_body_conflict parent tag_name creator (e : Env World)
  ex w1 r2 w2 :
  create_tensorboard_time_series _api parent (ts_draft creator tag_name) (world e)
  = (Raise ex, w1) ->
  is_conflict ex = true ->
  list_tensorboard_time_series _api (ts_request parent tag_name) w1 = (r2, w2) ->
  create_or_get_time_series_body _api parent tag_name creator e =
  (match r2 with
   | Ok l => ts_outcome tag_name l
   | Raise ex' => Raise ex'
   end,
   mkEnv w2 (calls e ++ [CreateTensorboardTimeSeries parent (ts_draft creator tag_name);
                       ListTensorboardTimeSeries (ts_request parent tag_name)])).
Proof.
  intros Hc Hk Hl. rewrite create_or_get_time_series_body_eq. simpl.
  rewrite Hc, Hk, Hl. rewrite <- app_assoc. destruct r2; reflexivity.
Qed.

(** The log of the shared body: always the create call, followed by
  the list call exactly when the create call raised a conflict. *)
Lemma create_or_get_time_series_body_calls parent tag_name creator (e : Env World) :
  calls (snd (create_or_get_time_series_body _api parent tag_name creator e)) =
  calls e ++
  CreateTensorboardTimeSeries parent (ts_draft creator tag_name) ::
  match fst (create_tensorboard_time_series _api parent (ts_draft creator tag_name)
             (world e)) with
  | Ok _ => []
  | Raise ex =>
    if is_conflict ex then [ListTensorboardTimeSeries (ts_request parent tag_name)]
    else []
  end.
Proof.
  rewrite create_or_get_time_series_body_eq. simpl.
  destruct (create_tensorboard_time_series _api parent _ (world e)) as [[ts|ex] w1];
  [reflexivity|]. simpl.
  destruct (is_conflict ex); [|reflexivity].
  destruct (list_tensorboard_time_series _api _ w1) as [[l|ex'] w2];
  simpl; rewrite <- app_assoc; reflexivity.
Qed.

(** The log of [get_run_resource_name]: nothing on a hit; on a miss the
  create call, followed by the list call exactly on a conflict. *)
Lemma get_run_resource_name_calls run_name self (e : Env World) :
  calls (snd (snd (get_run_resource_name _api run_name (self, e)))) =
  calls e ++
  match _run_name_to_run_resource_name self !! run_name with
  | Some _ => []
  | None =>
    CreateTensorboardRun (_experiment_resource_name self) (run_draft run_name)
                         (fst (uuid4 _api (world e))) ::
    match fst (create_tensorboard_run _api (_experiment_resource_name self)
                 (run_draft run_name) (fst (uuid4 _api (world e)))
                 (snd (uuid4 _api (world e)))) with
    | Ok _ => []
    | Raise ex =>
        if is_conflict ex then [ListTensorboardRuns (_experiment_resource_name self)]
        else []
    end
  end.
Proof.
  destruct (_run_name_to_run_resource_name self !! run_name) as [v|] eqn:H.
  - rewrite (get_run_resource_name_hit _ _ _ _ _ H). simpl. rewrite app_nil_r. reflexivity.
  - rewrite (get_run_resource_name_miss_eq _ _ _ _ H). simpl.
  destruct (create_tensorboard_run _api _ _ _ _) as [[r|ex] w1]; [reflexivity|]. simpl.
  destruct (is_conflict ex); [|reflexivity].
  destruct (list_tensorboard_runs _api _ w1) as [[l|ex'] w2].
  + destruct (run_outcome run_name l); simpl; rewrite <- app_assoc; reflexivity.
  + simpl; rewrite <- app_assoc; reflexivity.
Qed.

End Fallback.

(** ** What the fallback makes of the listing *)

Lemma ts_bool_display_name (ts : TensorboardTimeSeries) :
  ts_display_name ts <> EmptyString -> ts_bool ts = true.
Proof.
  intros H. unfold ts_bool. destruct (ts_display_name ts); [congruence|].
  simpl. rewrite orb_true_r. reflexivity.
Qed.

Lemma ts_bool_name (ts : TensorboardTimeSeries) :
  ts_name ts <> EmptyString -> ts_bool ts = true.
Proof.
  intros H. unfold ts_bool. destruct (ts_name ts); [congruence|]. reflexivity.
Qed.

(** On an empty listing the run fallback raises nothing: the loop
    variable still holds the draft, whose display name is the run name,
    and the draft's empty resource name is cached and returned. *)
Lemma get_run_resource_name_empty_listing {World} (_api : TensorboardServiceClient World)
  run_name self (e : Env World) id w0 ex w1 w2 :
  _run_name_to_run_resource_name self !! run_name = None ->
  uuid4 _api (world e) = (id, w0) ->
  create_tensorboard_run _api (_experiment_resource_name self) (run_draft run_name) id w0
  = (Raise ex, w1) ->
  is_conflict ex = true ->
  list_tensorboard_runs _api (_experiment_resource_name self) w1 = (Ok [], w2) ->
  get_run_resource_name _api run_name (self, e) =
  (Ok EmptyString,
   (cache_run self run_name EmptyString,
    mkEnv w2 (calls e ++ [CreateTensorboardRun (_experiment_resource_name self)
                                               (run_draft run_name) id;
                          ListTensorboardRuns (_experiment_resource_name self)]))).
Proof.
  intros Hmiss Hid Hc Hk Hl.
  rewrite (get_run_resource_name_conflict _ _ _ _ _ _ _ _ _ _ Hmiss Hid Hc Hk Hl).
  reflexivity.
Qed.




(** C1. When the create call of a run fails with the name conflict and
    the list call yields no run at all, [get_run_resource_name] ought to
    raise [ExistingResourceNotFoundError] and cache nothing; instead it
    returns the empty resource name of its own draft and caches it under
    the run name.  Here: run [run-a], a new manager, a client whose
    create call raises the conflict and whose list call yields nothing. *)
Theorem run_conflict_empty_listing_caches_draft :
  is_conflict Scripted.conflict = true
  /\ fst (get_run_resource_name Scripted.client "run-a"
            (Scripted.fresh [Scripted.ReplyRun (Raise Scripted.conflict);
                             Scripted.ReplyRuns (Ok [])]))
     = Ok EmptyString
  /\ _run_name_to_run_resource_name
       (fst (snd (get_run_resource_name Scripted.client "run-a"
                    (Scripted.fresh [Scripted.ReplyRun (Raise Scripted.conflict);
                                     Scripted.ReplyRuns (Ok [])]))))
     !! "run-a" = Some EmptyString.
Proof. repeat split; reflexivity. Qed.




(** C5, as stated, fails for time series in one corner: the tag is the
    empty string and the one listed resource, whose display name is
    that tag, is a message with no field set.  [if not time_series]
    takes it for no result: both time-series resolvers raise
    [ExistingResourceNotFoundError] and cache nothing. *)
Lemma one_listed_empty_message_is_not_found :
  is_conflict Scripted.conflict = true
  /\ List.filter (fun ts => PyStr.eqb (ts_display_name ts) EmptyString)
       [TensorboardTimeSeries_new] = [TensorboardTimeSeries_new]
  /\ get_or_create Scripted.client EmptyString Scripted.scalar_creator
       (Scripted.fresh_tags
          [Scripted.ReplyTimeSeries (Raise Scripted.conflict);
           Scripted.ReplyTimeSeriesList (Ok [TensorboardTimeSeries_new])])
     = (Raise (ExistingResourceNotFoundError (ts_not_found_msg EmptyString)),
        (TimeSeriesResourceManager_init "runs/1",
         mkEnv []
           [CreateTensorboardTimeSeries "runs/1"
              (ts_draft Scripted.scalar_creator EmptyString);
            ListTensorboardTimeSeries (ts_request "runs/1" EmptyString)]))
  /\ fst (get_time_series_resource_name Scripted.client "run-a" EmptyString
            Scripted.scalar_creator
            (Scripted.fresh
               [Scripted.ReplyRun (Ok (Scripted.run "runs/1" "run-a"));
                Scripted.ReplyTimeSeries (Raise Scripted.conflict);
                Scripted.ReplyTimeSeriesList (Ok [TensorboardTimeSeries_new])]))
     = Raise (ExistingResourceNotFoundError (ts_not_found_msg EmptyString))
  /\ _run_tag_name_to_time_series_name
       (fst (snd (get_time_series_resource_name Scripted.client "run-a" EmptyString
                    Scripted.scalar_creator
                    (Scripted.fresh
                       [Scripted.ReplyRun (Ok (Scripted.run "runs/1" "run-a"));
                        Scripted.ReplyTimeSeries (Raise Scripted.conflict);
                        Scripted.ReplyTimeSeriesList (Ok [TensorboardTimeSeries_new])]))))
     !! ("run-a", EmptyString) = None.
Proof. repeat split; reflexivity. Qed.

(** C5, amended. After a name conflict, when the list call yields
    exactly one resource of the requested display name, every resolver
    returns that resource and caches it: [get_run_resource_name] picks
    the one run of the (unfiltered) listing that carries the run name;
    the time-series resolvers take the single resource of the filtered
    listing, provided it is a message with some field set (as any
    resource with a name or a display name is). *)
Theorem conflict_with_one_match_resolves {World} (_api : TensorboardServiceClient World) :
  (forall run_name self (e : Env World) id w0 ex w1 l w2 r,
      _run_name_to_run_resource_name self !! run_name = None ->
      uuid4 _api (world e) = (id, w0) ->
      create_tensorboard_run _api (_experiment_resource_name self) (run_draft run_name)
        id w0 = (Raise ex, w1) ->
      is_conflict ex = true ->
      list_tensorboard_runs _api (_experiment_resource_name self) w1 = (Ok l, w2) ->
      matching_runs run_name l = [r] ->
      get_run_resource_name _api run_name (self, e) =
      (Ok (tbr_name r),
       (cache_run self run_name (tbr_name r),
        mkEnv w2 (calls e ++ [CreateTensorboardRun (_experiment_resource_name self)
                                                   (run_draft run_name) id;
                              ListTensorboardRuns (_experiment_resource_name self)]))))
  /\ (forall run_name tag_name creator self (e : Env World) rrn self1 e1 ex w1 ts w2,
      _run_tag_name_to_time_series_name self !! (run_name, tag_name) = None ->
      get_run_resource_name _api run_name (self, e) = (Ok rrn, (self1, e1)) ->
      create_tensorboard_time_series _api rrn (ts_draft creator tag_name) (world e1)
      = (Raise ex, w1) ->
      is_conflict ex = true ->
      list_tensorboard_time_series _api (ts_request rrn tag_name) w1 = (Ok [ts], w2) ->
      ts_bool ts = true ->
      get_time_series_resource_name _api run_name tag_name creator (self, e) =
      (Ok (ts_name ts),
       (cache_time_series self1 run_name tag_name (ts_name ts),
        mkEnv w2 (calls e1 ++ [CreateTensorboardTimeSeries rrn (ts_draft creator tag_name);
                               ListTensorboardTimeSeries (ts_request rrn tag_name)]))))
  /\ (forall tag_name creator self (e : Env World) ex w1 ts w2,
      _tag_to_time_series_proto self !! tag_name = None ->
      create_tensorboard_time_series _api (_run_resource_id self)
        (ts_draft creator tag_name) (world e) = (Raise ex, w1) ->
      is_conflict ex = true ->
      list_tensorboard_time_series _api (ts_request (_run_resource_id self) tag_name) w1
      = (Ok [ts], w2) ->
      ts_bool ts = true ->
      get_or_create _api tag_name creator (self, e) =
      (Ok ts,
       (cache_proto self tag_name ts,
        mkEnv w2 (calls e ++ [CreateTensorboardTimeSeries (_run_resource_id self)
                                                          (ts_draft creator tag_name);
                              ListTensorboardTimeSeries
                                (ts_request (_run_resource_id self) tag_name)])))).
Proof.
  split; [|split].
  - intros run_name self e id w0 ex w1 l w2 r Hmiss Hid Hc Hk Hl Hm.
    rewrite (get_run_resource_name_conflict _ _ _ _ _ _ _ _ _ _ Hmiss Hid Hc Hk Hl).
    unfold run_outcome. rewrite Hm.
    destruct l as [|x l]; [discriminate Hm | reflexivity].
  - intros run_name tag_name creator self e rrn self1 e1 ex w1 ts w2
      Hmiss Hrun Hc Hk Hl Hb.
    rewrite (get_time_series_resource_name_miss _ _ _ _ _ _ Hmiss), Hrun.
    rewrite (create_or_get_time_series_body_conflict _ _ _ _ _ _ _ _ _ Hc Hk Hl).
    simpl. rewrite Hb. reflexivity.
  - intros tag_name creator self e ex w1 ts w2 Hmiss Hc Hk Hl Hb.
    rewrite (get_or_create_miss _ _ _ _ _ Hmiss).
    rewrite (create_or_get_time_series_body_conflict _ _ _ _ _ _ _ _ _ Hc Hk Hl).
    simpl. rewrite Hb. reflexivity.
Qed.

Lemma conflict_with_one_match_resolves_witness :
  (exists s,
      get_run_resource_name Scripted.client "run-a"
        (Scripted.fresh
           [Scripted.ReplyRun (Raise Scripted.conflict);
            Scripted.ReplyRuns (Ok [Scripted.run "runs/0" "run-b";
                                    Scripted.run "runs/1" "run-a"])])
      = (Ok "runs/1", s)
      /\ _run_name_to_run_resource_name (fst s) !! "run-a" = Some "runs/1")
  /\ (exists s,
      get_time_series_resource_name Scripted.client "run-a" "loss" Scripted.scalar_creator
        (Scripted.fresh
           [Scripted.ReplyRun (Ok (Scripted.run "runs/1" "run-a"));
            Scripted.ReplyTimeSeries (Raise Scripted.conflict);
            Scripted.ReplyTimeSeriesList (Ok [Scripted.series "ts/1" "loss"])])
      = (Ok "ts/1", s)
      /\ _run_tag_name_to_time_series_name (fst s) !! ("run-a", "loss") = Some "ts/1")
  /\ (exists s,
      get_or_create Scripted.client "loss" Scripted.scalar_creator
        (Scripted.fresh_tags
           [Scripted.ReplyTimeSeries (Raise Scripted.conflict);
            Scripted.ReplyTimeSeriesList (Ok [Scripted.series "ts/1" "loss"])])
      = (Ok (Scripted.series "ts/1" "loss"), s)
      /\ _tag_to_time_series_proto (fst s) !! "loss" = Some (Scripted.series "ts/1" "loss")).
Proof.
  destruct (conflict_with_one_match_resolves Scripted.client) as (A & B & C).
  split; [|split].
  - eexists. split.
    + eapply (A "run-a" _ _ _ _ _ _ _ _ (Scripted.run "runs/1" "run-a")); reflexivity.
    + reflexivity.
  - eexists. split.
    + eapply (B "run-a" "loss" _ _ _ _ _ _ _ _ (Scripted.series "ts/1" "loss"));
        reflexivity.
    + reflexivity.
  - eexists. split.
    + eapply (C "loss" _ _ _ _ _ (Scripted.series "ts/1" "loss")); reflexivity.
    + reflexivity.
Defined.

(** ** Memoization *)

(** C3. Once a resolver has returned a resource for a name, every later
    call for that name, after any further requests to the same manager,
    returns the same resource and leaves the manager and the
    environment as they are: nothing is added to the log of remote
    calls, and the world is not touched. *)
Theorem resolved_names_are_memoized {World} (_api : TensorboardServiceClient World) :
  (forall run_name s v s1 qs,
      get_run_resource_name _api run_name s = (Ok v, s1) ->
      get_run_resource_name _api run_name (serve_all _api qs s1)
      = (Ok v, serve_all _api qs s1))
  /\ (forall run_name tag_name creator creator' s v s1 qs,
      get_time_series_resource_name _api run_name tag_name creator s = (Ok v, s1) ->
      get_time_series_resource_name _api run_name tag_name creator' (serve_all _api qs s1)
      = (Ok v, serve_all _api qs s1))
  /\ (forall tag_name creator creator' s v s1 qs,
      get_or_create _api tag_name creator s = (Ok v, s1) ->
      get_or_create _api tag_name creator' (serve_tags _api qs s1)
      = (Ok v, serve_tags _api qs s1)).
Proof.
  split; [|split].
  - intros run_name s v s1 qs H.
    apply get_run_resource_name_ok_cached in H.
    destruct (serve_all_grows _api qs s1) as (_ & Hsub & _).
    destruct (serve_all _api qs s1) as [self2 e2]. simpl in Hsub.
    apply get_run_resource_name_hit.
    eapply lookup_weaken; eassumption.
  - intros run_name tag_name creator creator' s v s1 qs H.
    apply get_time_series_resource_name_ok_cached in H.
    destruct (serve_all_grows _api qs s1) as (_ & _ & Hsub).
    destruct (serve_all _api qs s1) as [self2 e2]. simpl in Hsub.
    apply get_time_series_resource_name_hit.
    eapply lookup_weaken; eassumption.
  - intros tag_name creator creator' s v s1 qs H.
    apply get_or_create_ok_cached in H.
    destruct (serve_tags_grows _api qs s1) as (_ & Hsub).
    destruct (serve_tags _api qs s1) as [self2 e2]. simpl in Hsub.
    apply get_or_create_hit.
    eapply lookup_weaken; eassumption.
Qed.

Lemma resolved_names_are_memoized_witness :
  (exists s1,
      get_run_resource_name Scripted.client "run-a"
        (Scripted.fresh [Scripted.ReplyRun (Ok (Scripted.run "runs/1" "run-a"));
                         Scripted.ReplyRun (Ok (Scripted.run "runs/2" "run-b"))])
      = (Ok "runs/1", s1)
      /\ get_run_resource_name Scripted.client "run-a"
           (serve_all Scripted.client [ResolveRun "run-b"] s1)
         = (Ok "runs/1", serve_all Scripted.client [ResolveRun "run-b"] s1))
  /\ (exists s1,
      get_time_series_resource_name Scripted.client "run-a" "loss" Scripted.scalar_creator
        (Scripted.fresh [Scripted.ReplyRun (Ok (Scripted.run "runs/1" "run-a"));
                         Scripted.ReplyTimeSeries (Ok (Scripted.series "ts/1" "loss"));
                         Scripted.ReplyTimeSeries (Ok (Scripted.series "ts/2" "acc"))])
      = (Ok "ts/1", s1)
      /\ get_time_series_resource_name Scripted.client "run-a" "loss"
           Scripted.scalar_creator
           (serve_all Scripted.client
              [ResolveTimeSeries "run-a" "acc" Scripted.scalar_creator] s1)
         = (Ok "ts/1",
            serve_all Scripted.client
              [ResolveTimeSeries "run-a" "acc" Scripted.scalar_creator] s1))
  /\ (exists s1,
      get_or_create Scripted.client "loss" Scripted.scalar_creator
        (Scripted.fresh_tags
           [Scripted.ReplyTimeSeries (Ok (Scripted.series "ts/1" "loss"));
            Scripted.ReplyTimeSeries (Ok (Scripted.series "ts/2" "acc"))])
      = (Ok (Scripted.series "ts/1" "loss"), s1)
      /\ get_or_create Scripted.client "loss" Scripted.scalar_creator
           (serve_tags Scripted.client [("acc", Scripted.scalar_creator)] s1)
         = (Ok (Scripted.series "ts/1" "loss"),
            serve_tags Scripted.client [("acc", Scripted.scalar_creator)] s1)).
Proof.
  destruct (resolved_names_are_memoized Scripted.client) as (A & B & C).
  split; [|split].
  - eexists. split; cycle 1.
    + eapply (A "run-a"
                (Scripted.fresh [Scripted.ReplyRun (Ok (Scripted.run "runs/1" "run-a"));
                                 Scripted.ReplyRun (Ok (Scripted.run "runs/2" "run-b"))])).
      reflexivity.
    + reflexivity.
  - eexists. split; cycle 1.
    + eapply (B "run-a" "loss" Scripted.scalar_creator Scripted.scalar_creator
                (Scripted.fresh
                   [Scripted.ReplyRun (Ok (Scripted.run "runs/1" "run-a"));
                    Scripted.ReplyTimeSeries (Ok (Scripted.series "ts/1" "loss"));
                    Scripted.ReplyTimeSeries (Ok (Scripted.series "ts/2" "acc"))])).
      reflexivity.
    + reflexivity.
  - eexists. split; cycle 1.
    + eapply (C "loss" Scripted.scalar_creator Scripted.scalar_creator
                (Scripted.fresh_tags
                   [Scripted.ReplyTimeSeries (Ok (Scripted.series "ts/1" "loss"));
                    Scripted.ReplyTimeSeries (Ok (Scripted.series "ts/2" "acc"))])).
      reflexivity.
    + reflexivity.
Defined.

(** ** Failed calls *)

Lemma get_run_resource_name_raise_miss {World} (_api : TensorboardServiceClient World)
  run_name s ex s1 :
  get_run_resource_name _api run_name s = (Raise ex, s1) ->
  _run_name_to_run_resource_name (fst s) !! run_name = None.
Proof.
  destruct s as [self e]. simpl.
  destruct (_run_name_to_run_resource_name self !! run_name) as [v|] eqn:H;
    [|reflexivity].
  rewrite (get_run_resource_name_hit _ _ _ _ _ H). discriminate.
Qed.

Lemma get_time_series_resource_name_raise_miss {World}
  (_api : TensorboardServiceClient World) run_name tag_name creator s ex s1 :
  get_time_series_resource_name _api run_name tag_name creator s = (Raise ex, s1) ->
  _run_tag_name_to_time_series_name (fst s) !! (run_name, tag_name) = None.
Proof.
  destruct s as [self e]. simpl.
  destruct (_run_tag_name_to_time_series_name self !! (run_name, tag_name)) as [v|] eqn:H;
    [|reflexivity].
  rewrite (get_time_series_resource_name_hit _ _ _ _ _ _ _ H). discriminate.
Qed.

Lemma get_or_create_raise_miss {World} (_api : TensorboardServiceClient World)
  tag_name creator s ex s1 :
  get_or_create _api tag_name creator s = (Raise ex, s1) ->
  _tag_to_time_series_proto (fst s) !! tag_name = None.
Proof.
  destruct s as [self e]. simpl.
  destruct (_tag_to_time_series_proto self !! tag_name) as [v|] eqn:H; [|reflexivity].
  rewrite (get_or_create_hit _ _ _ _ _ _ H). discriminate.
Qed.

(** The log of [get_time_series_resource_name] on a miss: the calls of
    the run resolution, then, if it returned, the calls of the
    time-series protocol under the run it returned. *)
Lemma get_time_series_resource_name_calls {World} (_api : TensorboardServiceClient World)
  run_name tag_name creator self (e : Env World) :
  _run_tag_name_to_time_series_name self !! (run_name, tag_name) = None ->
  calls (snd (snd (get_time_series_resource_name _api run_name tag_name creator (self, e))))
  = match get_run_resource_name _api run_name (self, e) with
    | (Ok rrn, (_, e1)) =>
        calls (snd (create_or_get_time_series_body _api rrn tag_name creator e1))
    | (Raise _, (_, e1)) => calls e1
    end.
Proof.
  intros Hmiss. rewrite (get_time_series_resource_name_miss _ _ _ _ _ _ Hmiss).
  destruct (get_run_resource_name _api run_name (self, e)) as [[rrn|ex] [self1 e1]];
    [|reflexivity].
  destruct (create_or_get_time_series_body _api rrn tag_name creator e1) as [[ts|ex] e2];
    reflexivity.
Qed.

(** A miss of [get_time_series_resource_name] starts with a create
    call: the run's when the run name is not cached, the time series'
    otherwise. *)
Lemma get_time_series_resource_name_starts_with_create {World}
  (_api : TensorboardServiceClient World) run_name tag_name creator self (e : Env World) :
  _run_tag_name_to_time_series_name self !! (run_name, tag_name) = None ->
  exists c rest,
    calls (snd (snd (get_time_series_resource_name _api run_name tag_name creator
                       (self, e))))
    = calls e ++ c :: rest
    /\ is_create_call c = true.
Proof.
  intros Hmiss. rewrite (get_time_series_resource_name_calls _ _ _ _ _ _ Hmiss).
  pose proof (get_run_resource_name_calls _api run_name self e) as Hrun.
  destruct (_run_name_to_run_resource_name self !! run_name) as [v|] eqn:Hr.
  - rewrite (get_run_resource_name_hit _ _ _ _ _ Hr).
    rewrite create_or_get_time_series_body_calls. eauto.
  - destruct (get_run_resource_name _api run_name (self, e)) as [[rrn|ex] [self1 e1]];
      simpl in Hrun.
    + rewrite create_or_get_time_series_body_calls, Hrun.
      rewrite <- app_assoc. simpl. eauto.
    + rewrite Hrun. eauto.
Qed.

(** C6. A call that raises leaves the cache it would have written as it
    was, with no entry for the key; so the next call for the key misses
    again and starts the protocol anew, with a create call. *)
Theorem failed_resolve_caches_nothing {World} (_api : TensorboardServiceClient World) :
  (forall run_name s ex s1,
      get_run_resource_name _api run_name s = (Raise ex, s1) ->
      fst s1 = fst s
      /\ _run_name_to_run_resource_name (fst s1) !! run_name = None
      /\ exists rest,
          calls (snd (snd (get_run_resource_name _api run_name s1)))
          = calls (snd s1)
            ++ CreateTensorboardRun (_experiment_resource_name (fst s1))
                 (run_draft run_name) (fst (uuid4 _api (world (snd s1)))) :: rest)
  /\ (forall run_name tag_name creator s ex s1,
      get_time_series_resource_name _api run_name tag_name creator s = (Raise ex, s1) ->
      _run_tag_name_to_time_series_name (fst s1) = _run_tag_name_to_time_series_name (fst s)
      /\ _run_tag_name_to_time_series_name (fst s1) !! (run_name, tag_name) = None
      /\ exists c rest,
          calls (snd (snd (get_time_series_resource_name _api run_name tag_name creator s1)))
          = calls (snd s1) ++ c :: rest
          /\ is_create_call c = true)
  /\ (forall tag_name creator s ex s1,
      get_or_create _api tag_name creator s = (Raise ex, s1) ->
      fst s1 = fst s
      /\ _tag_to_time_series_proto (fst s1) !! tag_name = None
      /\ exists rest,
          calls (snd (snd (get_or_create _api tag_name creator s1)))
          = calls (snd s1)
            ++ CreateTensorboardTimeSeries (_run_resource_id (fst s1))
                 (ts_draft creator tag_name) :: rest).
Proof.
  split; [|split].
  - intros run_name s ex s1 H.
    pose proof (get_run_resource_name_raise_self _api _ _ _ _ H) as Hself.
    pose proof (get_run_resource_name_raise_miss _api _ _ _ _ H) as Hmiss.
    rewrite <- Hself in Hmiss. split; [exact Hself|]. split; [exact Hmiss|].
    destruct s1 as [self1 e1]. simpl in *.
    rewrite get_run_resource_name_calls, Hmiss. eauto.
  - intros run_name tag_name creator s ex s1 H.
    pose proof (get_time_series_resource_name_raise_frame _api _ _ _ _ _ _ H) as Hframe.
    pose proof (get_time_series_resource_name_raise_miss _api _ _ _ _ _ _ H) as Hmiss.
    rewrite <- Hframe in Hmiss. split; [exact Hframe|]. split; [exact Hmiss|].
    destruct s1 as [self1 e1]. simpl in *.
    apply get_time_series_resource_name_starts_with_create. exact Hmiss.
  - intros tag_name creator s ex s1 H.
    pose proof (get_or_create_raise_self _api _ _ _ _ _ H) as Hself.
    pose proof (get_or_create_raise_miss _api _ _ _ _ _ H) as Hmiss.
    rewrite <- Hself in Hmiss. split; [exact Hself|]. split; [exact Hmiss|].
    destruct s1 as [self1 e1]. simpl in *.
    rewrite (get_or_create_miss _ _ _ _ _ Hmiss).
    pose proof (create_or_get_time_series_body_calls _api (_run_resource_id self1)
                  tag_name creator e1) as Hc.
    destruct (create_or_get_time_series_body _api _ tag_name creator e1) as [[ts|ex'] e2];
      simpl in *; rewrite Hc; eauto.
Qed.

Lemma failed_resolve_caches_nothing_witness :
  _run_name_to_run_resource_name
    (fst (snd (get_run_resource_name Scripted.client "run-a"
                 (Scripted.fresh
                    [Scripted.ReplyRun (Raise Scripted.conflict);
                     Scripted.ReplyRuns (Ok [Scripted.run "runs/0" "run-b"])]))))
  !! "run-a" = None
  /\ _run_tag_name_to_time_series_name
       (fst (snd (get_time_series_resource_name Scripted.client "run-a" "loss"
                    Scripted.scalar_creator
                    (Scripted.fresh
                       [Scripted.ReplyRun (Ok (Scripted.run "runs/1" "run-a"));
                        Scripted.ReplyTimeSeries
                          (Raise (OtherError "PermissionDenied" "denied"))]))))
     !! ("run-a", "loss") = None
  /\ _tag_to_time_series_proto
       (fst (snd (get_or_create Scripted.client "loss" Scripted.scalar_creator
                    (Scripted.fresh_tags
                       [Scripted.ReplyTimeSeries (Raise Scripted.conflict);
                        Scripted.ReplyTimeSeriesList (Ok [])]))))
     !! "loss" = None.
Proof.
  destruct (failed_resolve_caches_nothing Scripted.client) as (A & B & C).
  split; [|split].
  - destruct (A "run-a"
                (Scripted.fresh
                   [Scripted.ReplyRun (Raise Scripted.conflict);
                    Scripted.ReplyRuns (Ok [Scripted.run "runs/0" "run-b"])])
                _ _ eq_refl) as (_ & Y & _).
    exact Y.
  - destruct (B "run-a" "loss" Scripted.scalar_creator
                (Scripted.fresh
                   [Scripted.ReplyRun (Ok (Scripted.run "runs/1" "run-a"));
                    Scripted.ReplyTimeSeries
                      (Raise (OtherError "PermissionDenied" "denied"))])
                _ _ eq_refl) as (_ & Y & _).
    exact Y.
  - destruct (C "loss" Scripted.scalar_creator
                (Scripted.fresh_tags
                   [Scripted.ReplyTimeSeries (Raise Scripted.conflict);
                    Scripted.ReplyTimeSeriesList (Ok [])])
                _ _ eq_refl) as (_ & Y & _).
    exact Y.
Defined.

(** C10. In [get_time_series_resource_name], when the run resolution
    has created and cached the run and the time-series step then
    raises, the exception goes to the caller, the run entry stays in the
    run cache, and the time-series cache is as it was, with no entry
    for the pair. *)
Theorem run_entry_survives_time_series_failure {World}
  (_api : TensorboardServiceClient World) :
  forall run_name tag_name creator self (e : Env World) rrn s1 ex s2,
    _run_tag_name_to_time_series_name self !! (run_name, tag_name) = None ->
    _run_name_to_run_resource_name self !! run_name = None ->
    get_run_resource_name _api run_name (self, e) = (Ok rrn, s1) ->
    _create_or_get_time_series _api rrn tag_name creator s1 = (Raise ex, s2) ->
    get_time_series_resource_name _api run_name tag_name creator (self, e) = (Raise ex, s2)
    /\ _run_name_to_run_resource_name (fst s2)
       = <[run_name := rrn]> (_run_name_to_run_resource_name self)
    /\ _run_name_to_run_resource_name (fst s2) !! run_name = Some rrn
    /\ _run_tag_name_to_time_series_name (fst s2) = _run_tag_name_to_time_series_name self
    /\ _run_tag_name_to_time_series_name (fst s2) !! (run_name, tag_name) = None.
Proof.
  intros run_name tag_name creator self e rrn [self1 e1] ex [self2 e2] Hmiss Hrmiss Hrun Hts.
  unfold _create_or_get_time_series, with_env in Hts. simpl in Hts.
  destruct (create_or_get_time_series_body _api rrn tag_name creator e1) as [r e2'] eqn:Hb.
  injection Hts as -> <- <-.
  assert (Hcache : _run_name_to_run_resource_name self1
                   = <[run_name := rrn]> (_run_name_to_run_resource_name self)).
  { rewrite (get_run_resource_name_miss_eq _ _ _ _ Hrmiss) in Hrun. simpl in Hrun.
    destruct (create_tensorboard_run _api _ _ _ _) as [[r|ex0] w1].
    { injection Hrun as <- <- _. reflexivity. }
    destruct (is_conflict ex0); [|discriminate].
    destruct (list_tensorboard_runs _api _ w1) as [[l|ex'] w2]; [|discriminate].
    destruct (run_outcome run_name l); [|discriminate].
    injection Hrun as <- <- _. reflexivity. }
  pose proof (get_run_resource_name_frame _api run_name (self, e)) as Hframe.
  rewrite Hrun in Hframe. simpl in Hframe.
  repeat split; simpl.
  - rewrite (get_time_series_resource_name_miss _ _ _ _ _ _ Hmiss), Hrun, Hb. reflexivity.
  - exact Hcache.
  - rewrite Hcache. apply lookup_insert_eq.
  - exact Hframe.
  - rewrite Hframe. exact Hmiss.
Qed.

Lemma run_entry_survives_time_series_failure_witness :
  fst (get_time_series_resource_name Scripted.client "run-a" "loss" Scripted.scalar_creator
         (Scripted.fresh
            [Scripted.ReplyRun (Ok (Scripted.run "runs/1" "run-a"));
             Scripted.ReplyTimeSeries (Raise Scripted.conflict);
             Scripted.ReplyTimeSeriesList (Ok [])]))
  = Raise (ExistingResourceNotFoundError (ts_not_found_msg "loss"))
  /\ _run_name_to_run_resource_name
       (fst (snd (get_time_series_resource_name Scripted.client "run-a" "loss"
                    Scripted.scalar_creator
                    (Scripted.fresh
                       [Scripted.ReplyRun (Ok (Scripted.run "runs/1" "run-a"));
                        Scripted.ReplyTimeSeries (Raise Scripted.conflict);
                        Scripted.ReplyTimeSeriesList (Ok [])]))))
     !! "run-a" = Some "runs/1".
Proof.
  destruct (run_entry_survives_time_series_failure Scripted.client
              "run-a" "loss" Scripted.scalar_creator
              (OnePlatformResourceManager_init "experiments/e1")
              (Scripted.env
                 [Scripted.ReplyRun (Ok (Scripted.run "runs/1" "run-a"));
                  Scripted.ReplyTimeSeries (Raise Scripted.conflict);
                  Scripted.ReplyTimeSeriesList (Ok [])])
              _ _ _ _ eq_refl eq_refl eq_refl eq_refl) as (H & _ & Y & _).
  split.
  - change (Scripted.fresh ?x) with
      (OnePlatformResourceManager_init "experiments/e1", Scripted.env x).
    rewrite H. reflexivity.
  - change (Scripted.fresh ?x) with
      (OnePlatformResourceManager_init "experiments/e1", Scripted.env x).
    rewrite H. exact Y.
Defined.

(** ** Two levels *)

Lemma create_or_get_time_series_body_calls_parent {World}
  (_api : TensorboardServiceClient World) parent tag_name creator (e : Env World) :
  exists rest,
    calls (snd (create_or_get_time_series_body _api parent tag_name creator e))
    = calls e ++ CreateTensorboardTimeSeries parent (ts_draft creator tag_name) :: rest
    /\ Forall (fun c => time_series_call_parent c = Some parent)
         (CreateTensorboardTimeSeries parent (ts_draft creator tag_name) :: rest).
Proof.
  rewrite create_or_get_time_series_body_calls.
  eexists. split; [reflexivity|].
  constructor; [reflexivity|].
  destruct (fst (create_tensorboard_time_series _api parent _ (world e))) as [ts|ex];
    [constructor|].
  destruct (is_conflict ex); repeat constructor.
Qed.

Lemma get_run_resource_name_calls_run {World} (_api : TensorboardServiceClient World)
  run_name self (e : Env World) :
  exists run_calls,
    calls (snd (snd (get_run_resource_name _api run_name (self, e)))) = calls e ++ run_calls
    /\ Forall (fun c => is_run_call c = true) run_calls
    /\ (is_Some (_run_name_to_run_resource_name self !! run_name) -> run_calls = [])
    /\ (_run_name_to_run_resource_name self !! run_name = None ->
        exists rest,
          run_calls = CreateTensorboardRun (_experiment_resource_name self)
                        (run_draft run_name) (fst (uuid4 _api (world e))) :: rest).
Proof.
  rewrite get_run_resource_name_calls.
  eexists. split; [reflexivity|].
  destruct (_run_name_to_run_resource_name self !! run_name) as [v|] eqn:H.
  - split; [constructor|]. split; [reflexivity|]. discriminate.
  - split.
    + constructor; [reflexivity|].
      destruct (fst (create_tensorboard_run _api _ _ _ _)) as [r|ex]; [constructor|].
      destruct (is_conflict ex); repeat constructor.
    + split; [intros [x Hx]; discriminate|]. eauto.
Qed.

Lemma get_time_series_resource_name_calls_cached_run {World}
  (_api : TensorboardServiceClient World) run_name tag_name creator self (e : Env World)
  rrn :
  _run_name_to_run_resource_name self !! run_name = Some rrn ->
  exists ts_calls,
    calls (snd (snd (get_time_series_resource_name _api run_name tag_name creator
                       (self, e))))
    = calls e ++ ts_calls
    /\ Forall (fun c => time_series_call_parent c = Some rrn) ts_calls.
Proof.
  intros Hr.
  destruct (_run_tag_name_to_time_series_name self !! (run_name, tag_name)) as [v|] eqn:H.
  - rewrite (get_time_series_resource_name_hit _ _ _ _ _ _ _ H).
    exists []. simpl. rewrite app_nil_r. split; [reflexivity | constructor].
  - rewrite (get_time_series_resource_name_calls _ _ _ _ _ _ H).
    rewrite (get_run_resource_name_hit _ _ _ _ _ Hr).
    destruct (create_or_get_time_series_body_calls_parent _api rrn tag_name creator e)
      as (rest & Hc & Hp).
    eauto.
Qed.

(** C7. On a miss, [get_time_series_resource_name] first resolves the
    run, with remote calls only when the run name is not cached yet,
    and only then makes the time-series calls, under the run it got;
    a later call for the same run and any tag finds the run cached and
    makes time-series calls only, under that same run. *)
Theorem two_level_resolution_order {World} (_api : TensorboardServiceClient World) :
  (forall run_name tag_name creator self (e : Env World),
      _run_tag_name_to_time_series_name self !! (run_name, tag_name) = None ->
      exists run_calls ts_calls,
        calls (snd (snd (get_run_resource_name _api run_name (self, e))))
        = calls e ++ run_calls
        /\ calls (snd (snd (get_time_series_resource_name _api run_name tag_name creator
                              (self, e))))
           = calls e ++ run_calls ++ ts_calls
        /\ Forall (fun c => is_run_call c = true) run_calls
        /\ (is_Some (_run_name_to_run_resource_name self !! run_name) -> run_calls = [])
        /\ (_run_name_to_run_resource_name self !! run_name = None ->
            exists rest,
              run_calls = CreateTensorboardRun (_experiment_resource_name self)
                            (run_draft run_name) (fst (uuid4 _api (world e))) :: rest)
        /\ match fst (get_run_resource_name _api run_name (self, e)) with
           | Ok rrn =>
               Forall (fun c => time_series_call_parent c = Some rrn) ts_calls
               /\ exists rest,
                   ts_calls = CreateTensorboardTimeSeries rrn (ts_draft creator tag_name)
                              :: rest
           | Raise _ => ts_calls = []
           end)
  /\ (forall run_name tag_name creator tag_name' creator' s rrn,
      _run_tag_name_to_time_series_name (fst s) !! (run_name, tag_name) = None ->
      fst (get_run_resource_name _api run_name s) = Ok rrn ->
      _run_name_to_run_resource_name
        (fst (snd (get_time_series_resource_name _api run_name tag_name creator s)))
      !! run_name = Some rrn
      /\ exists ts_calls,
          calls (snd (snd (get_time_series_resource_name _api run_name tag_name' creator'
                             (snd (get_time_series_resource_name _api run_name tag_name
                                     creator s)))))
          = calls (snd (snd (get_time_series_resource_name _api run_name tag_name
                               creator s)))
            ++ ts_calls
          /\ Forall (fun c => time_series_call_parent c = Some rrn) ts_calls).
Proof.
  split.
  - intros run_name tag_name creator self e Hmiss.
    destruct (get_run_resource_name_calls_run _api run_name self e)
      as (run_calls & Hrun & Hkind & Hhit & Hfirst).
    rewrite (get_time_series_resource_name_calls _ _ _ _ _ _ Hmiss).
    destruct (get_run_resource_name _api run_name (self, e)) as [[rrn|ex] [self1 e1]];
      simpl in *.
    + destruct (create_or_get_time_series_body_calls_parent _api rrn tag_name creator e1)
        as (rest & Hc & Hp).
      exists run_calls, (CreateTensorboardTimeSeries rrn (ts_draft creator tag_name) :: rest).
      rewrite Hc, Hrun, <- app_assoc. eauto 10.
    + exists run_calls, []. rewrite app_nil_r. eauto 10.
  - intros run_name tag_name creator tag_name' creator' [self e] rrn Hmiss Hrun.
    simpl in Hmiss.
    assert (Hr : _run_name_to_run_resource_name
                   (fst (snd (get_time_series_resource_name _api run_name tag_name creator
                                (self, e))))
                 !! run_name = Some rrn).
    { rewrite (get_time_series_resource_name_miss _ _ _ _ _ _ Hmiss).
      destruct (get_run_resource_name _api run_name (self, e)) as [[v|ex] [self1 e1]] eqn:Hg;
        simpl in Hrun; [|discriminate].
      injection Hrun as ->.
      apply get_run_resource_name_ok_cached in Hg. simpl in Hg.
      destruct (create_or_get_time_series_body _api rrn tag_name creator e1)
        as [[ts|ex] e2]; exact Hg. }
    split; [exact Hr|].
    destruct (snd (get_time_series_resource_name _api run_name tag_name creator (self, e)))
      as [selfA eA].
    simpl in Hr.
    apply get_time_series_resource_name_calls_cached_run. exact Hr.
Qed.

Lemma two_level_resolution_order_witness :
  calls (snd (snd (get_time_series_resource_name Scripted.client "r1" "acc"
                     Scripted.scalar_creator
                     (snd (get_time_series_resource_name Scripted.client "r1" "loss"
                             Scripted.scalar_creator
                             (Scripted.fresh
                                [Scripted.ReplyRun (Ok (Scripted.run "runs/1" "r1"));
                                 Scripted.ReplyTimeSeries
                                   (Ok (Scripted.series "ts/1" "loss"));
                                 Scripted.ReplyTimeSeries
                                   (Ok (Scripted.series "ts/2" "acc"))]))))))
  = [CreateTensorboardRun "experiments/e1" (run_draft "r1")
       "7c9e6679-7425-40de-944b-e07fc1f90ae7";
     CreateTensorboardTimeSeries "runs/1" (ts_draft Scripted.scalar_creator "loss");
     CreateTensorboardTimeSeries "runs/1" (ts_draft Scripted.scalar_creator "acc")]
  /\ _run_name_to_run_resource_name
       (fst (snd (get_time_series_resource_name Scripted.client "r1" "loss"
                    Scripted.scalar_creator
                    (Scripted.fresh
                       [Scripted.ReplyRun (Ok (Scripted.run "runs/1" "r1"));
                        Scripted.ReplyTimeSeries (Ok (Scripted.series "ts/1" "loss"));
                        Scripted.ReplyTimeSeries (Ok (Scripted.series "ts/2" "acc"))]))))
     !! "r1" = Some "runs/1".
Proof.
  destruct (two_level_resolution_order Scripted.client) as (_ & B).
  destruct (B "r1" "loss" Scripted.scalar_creator "acc" Scripted.scalar_creator
              (Scripted.fresh
                 [Scripted.ReplyRun (Ok (Scripted.run "runs/1" "r1"));
                  Scripted.ReplyTimeSeries (Ok (Scripted.series "ts/1" "loss"));
                  Scripted.ReplyTimeSeries (Ok (Scripted.series "ts/2" "acc"))])
              "runs/1" eq_refl eq_refl) as (Y & _).
  split; [reflexivity | exact Y].
Defined.

(** ** Which errors take the fallback *)

Lemma is_conflict_true (ex : exn) : is_conflict ex = true <-> says_already_exist ex.
Proof.
  unfold says_already_exist. split.
  - destruct ex as [message| | | |]; simpl; try discriminate. eauto.
  - intros (message & -> & H). exact H.
Qed.

Lemma is_conflict_false (ex : exn) : is_conflict ex = false <-> ~ says_already_exist ex.
Proof.
  rewrite <- is_conflict_true. destruct (is_conflict ex); split; congruence.
Qed.

(** C9. When the create call raises, the list call is made exactly when
    the error is an [InvalidArgument] whose message contains
    [already exist]: then the log gains the create call and the list
    call; in every other case, another [InvalidArgument] included, the
    log gains the create call alone and the error reaches the caller as
    it is, with the manager unchanged.  The test reads the message
    only, so an [InvalidArgument] about malformed input worded with
    [already exist] takes the list call as well. *)
Theorem fallback_iff_invalid_argument_already_exist {World}
  (_api : TensorboardServiceClient World) :
  (forall run_name self (e : Env World) id w0 ex w1,
      _run_name_to_run_resource_name self !! run_name = None ->
      uuid4 _api (world e) = (id, w0) ->
      create_tensorboard_run _api (_experiment_resource_name self) (run_draft run_name)
        id w0 = (Raise ex, w1) ->
      (says_already_exist ex ->
       calls (snd (snd (get_run_resource_name _api run_name (self, e))))
       = calls e ++ [CreateTensorboardRun (_experiment_resource_name self)
                                          (run_draft run_name) id;
                     ListTensorboardRuns (_experiment_resource_name self)])
      /\ (~ says_already_exist ex ->
          get_run_resource_name _api run_name (self, e)
          = (Raise ex,
             (self,
              mkEnv w1 (calls e ++ [CreateTensorboardRun (_experiment_resource_name self)
                                                         (run_draft run_name) id])))))
  /\ (forall run_name tag_name creator self (e : Env World) rrn self1 e1 ex w1,
      _run_tag_name_to_time_series_name self !! (run_name, tag_name) = None ->
      get_run_resource_name _api run_name (self, e) = (Ok rrn, (self1, e1)) ->
      create_tensorboard_time_series _api rrn (ts_draft creator tag_name) (world e1)
      = (Raise ex, w1) ->
      (says_already_exist ex ->
       calls (snd (snd (get_time_series_resource_name _api run_name tag_name creator
                          (self, e))))
       = calls e1 ++ [CreateTensorboardTimeSeries rrn (ts_draft creator tag_name);
                      ListTensorboardTimeSeries (ts_request rrn tag_name)])
      /\ (~ says_already_exist ex ->
          get_time_series_resource_name _api run_name tag_name creator (self, e)
          = (Raise ex,
             (self1,
              mkEnv w1 (calls e1 ++ [CreateTensorboardTimeSeries rrn
                                       (ts_draft creator tag_name)])))))
  /\ (forall tag_name creator self (e : Env World) ex w1,
      _tag_to_time_series_proto self !! tag_name = None ->
      create_tensorboard_time_series _api (_run_resource_id self)
        (ts_draft creator tag_name) (world e) = (Raise ex, w1) ->
      (says_already_exist ex ->
       calls (snd (snd (get_or_create _api tag_name creator (self, e))))
       = calls e ++ [CreateTensorboardTimeSeries (_run_resource_id self)
                                                 (ts_draft creator tag_name);
                     ListTensorboardTimeSeries
                       (ts_request (_run_resource_id self) tag_name)])
      /\ (~ says_already_exist ex ->
          get_or_create _api tag_name creator (self, e)
          = (Raise ex,
             (self,
              mkEnv w1 (calls e ++ [CreateTensorboardTimeSeries (_run_resource_id self)
                                                                (ts_draft creator tag_name)]))))).
Proof.
  split; [|split].
  - intros run_name self e id w0 ex w1 Hmiss Hid Hc. split; intros Hk.
    + apply is_conflict_true in Hk.
      rewrite get_run_resource_name_calls, Hmiss, Hid. simpl. rewrite Hc. simpl.
      rewrite Hk. reflexivity.
    + apply is_conflict_false in Hk.
      apply (get_run_resource_name_propagates _ _ _ _ _ _ _ _ Hmiss Hid Hc Hk).
  - intros run_name tag_name creator self e rrn self1 e1 ex w1 Hmiss Hrun Hc.
    split; intros Hk.
    + apply is_conflict_true in Hk.
      rewrite (get_time_series_resource_name_calls _ _ _ _ _ _ Hmiss), Hrun.
      rewrite create_or_get_time_series_body_calls, Hc. simpl. rewrite Hk. reflexivity.
    + apply is_conflict_false in Hk.
      rewrite (get_time_series_resource_name_miss _ _ _ _ _ _ Hmiss), Hrun.
      rewrite (create_or_get_time_series_body_propagates _ _ _ _ _ _ _ Hc Hk). reflexivity.
  - intros tag_name creator self e ex w1 Hmiss Hc. split; intros Hk.
    + apply is_conflict_true in Hk.
      rewrite (get_or_create_miss _ _ _ _ _ Hmiss).
      pose proof (create_or_get_time_series_body_calls _api (_run_resource_id self)
                    tag_name creator e) as Hcalls.
      rewrite Hc in Hcalls. simpl in Hcalls. rewrite Hk in Hcalls.
      destruct (create_or_get_time_series_body _api _ tag_name creator e) as [[ts|ex'] e2];
        exact Hcalls.
    + apply is_conflict_false in Hk.
      rewrite (get_or_create_miss _ _ _ _ _ Hmiss).
      rewrite (create_or_get_time_series_body_propagates _ _ _ _ _ _ _ Hc Hk). reflexivity.
Qed.

Lemma fallback_iff_invalid_argument_already_exist_witness :
  (calls (snd (snd (get_run_resource_name Scripted.client "run-a"
                      (Scripted.fresh [Scripted.ReplyRun (Raise Scripted.malformed);
                                       Scripted.ReplyRuns (Ok [])]))))
   = [CreateTensorboardRun "experiments/e1" (run_draft "run-a")
        "7c9e6679-7425-40de-944b-e07fc1f90ae7";
      ListTensorboardRuns "experiments/e1"]
   /\ exists s,
       get_run_resource_name Scripted.client "run-a"
         (Scripted.fresh [Scripted.ReplyRun (Raise Scripted.too_long)])
       = (Raise Scripted.too_long, s))
  /\ (calls (snd (snd (get_time_series_resource_name Scripted.client "run-a" "loss"
                         Scripted.scalar_creator
                         (Scripted.fresh
                            [Scripted.ReplyRun (Ok (Scripted.run "runs/1" "run-a"));
                             Scripted.ReplyTimeSeries (Raise Scripted.malformed);
                             Scripted.ReplyTimeSeriesList (Ok [])]))))
      = [CreateTensorboardRun "experiments/e1" (run_draft "run-a")
           "7c9e6679-7425-40de-944b-e07fc1f90ae7";
         CreateTensorboardTimeSeries "runs/1" (ts_draft Scripted.scalar_creator "loss");
         ListTensorboardTimeSeries (ts_request "runs/1" "loss")]
      /\ exists s,
          get_time_series_resource_name Scripted.client "run-a" "loss"
            Scripted.scalar_creator
            (Scripted.fresh [Scripted.ReplyRun (Ok (Scripted.run "runs/1" "run-a"));
                             Scripted.ReplyTimeSeries (Raise Scripted.too_long)])
          = (Raise Scripted.too_long, s))
  /\ (calls (snd (snd (get_or_create Scripted.client "loss" Scripted.scalar_creator
                         (Scripted.fresh_tags
                            [Scripted.ReplyTimeSeries (Raise Scripted.malformed);
                             Scripted.ReplyTimeSeriesList (Ok [])]))))
      = [CreateTensorboardTimeSeries "runs/1" (ts_draft Scripted.scalar_creator "loss");
         ListTensorboardTimeSeries (ts_request "runs/1" "loss")]
      /\ exists s,
          get_or_create Scripted.client "loss" Scripted.scalar_creator
            (Scripted.fresh_tags [Scripted.ReplyTimeSeries (Raise Scripted.too_long)])
          = (Raise Scripted.too_long, s)).
Proof.
  assert (Hyes : says_already_exist Scripted.malformed)
    by (apply is_conflict_true; reflexivity).
  assert (Hno : ~ says_already_exist Scripted.too_long)
    by (apply is_conflict_false; reflexivity).
  destruct (fallback_iff_invalid_argument_already_exist Scripted.client) as (A & B & C).
  split; [|split]; split.
  - refine (proj1 (A "run-a" (OnePlatformResourceManager_init "experiments/e1")
                     (Scripted.env [Scripted.ReplyRun (Raise Scripted.malformed);
                                    Scripted.ReplyRuns (Ok [])])
                     _ _ _ _ eq_refl eq_refl eq_refl) Hyes).
  - eexists.
    refine (proj2 (A "run-a" (OnePlatformResourceManager_init "experiments/e1")
                     (Scripted.env [Scripted.ReplyRun (Raise Scripted.too_long)])
                     _ _ _ _ eq_refl eq_refl eq_refl) Hno).
  - refine (proj1 (B "run-a" "loss" Scripted.scalar_creator
                     (OnePlatformResourceManager_init "experiments/e1")
                     (Scripted.env
                        [Scripted.ReplyRun (Ok (Scripted.run "runs/1" "run-a"));
                         Scripted.ReplyTimeSeries (Raise Scripted.malformed);
                         Scripted.ReplyTimeSeriesList (Ok [])])
                     _ _ _ _ _ eq_refl eq_refl eq_refl) Hyes).
  - eexists.
    refine (proj2 (B "run-a" "loss" Scripted.scalar_creator
                     (OnePlatformResourceManager_init "experiments/e1")
                     (Scripted.env
                        [Scripted.ReplyRun (Ok (Scripted.run "runs/1" "run-a"));
                         Scripted.ReplyTimeSeries (Raise Scripted.too_long)])
                     _ _ _ _ _ eq_refl eq_refl eq_refl) Hno).
  - refine (proj1 (C "loss" Scripted.scalar_creator
                     (TimeSeriesResourceManager_init "runs/1")
                     (Scripted.env [Scripted.ReplyTimeSeries (Raise Scripted.malformed);
                                    Scripted.ReplyTimeSeriesList (Ok [])])
                     _ _ eq_refl eq_refl) Hyes).
  - eexists.
    refine (proj2 (C "loss" Scripted.scalar_creator
                     (TimeSeriesResourceManager_init "runs/1")
                     (Scripted.env [Scripted.ReplyTimeSeries (Raise Scripted.too_long)])
                     _ _ eq_refl eq_refl) Hno).
Defined.

(** ** The filter of the list call *)

Lemma escape_ascii_plain (c : ascii) :
  PyStr.plain_ascii c = true -> PyStr.escape_ascii c = String c EmptyString.
Proof.
  unfold PyStr.plain_ascii, PyStr.escape_ascii. cbv zeta.
  generalize (nat_of_ascii c). intros n H.
  destruct (Nat.eqb n 34) eqn:E34; [rewrite andb_false_r in H; discriminate|].
  destruct (Nat.eqb n 92) eqn:E92; [rewrite andb_false_r in H; discriminate|].
  rewrite !andb_true_r in H. apply andb_true_iff in H as [H1 H2].
  apply Nat.leb_le in H1.
  destruct (Nat.eqb n 8) eqn:E8; [apply Nat.eqb_eq in E8; lia|].
  destruct (Nat.eqb n 12) eqn:E12; [apply Nat.eqb_eq in E12; lia|].
  destruct (Nat.eqb n 10) eqn:E10; [apply Nat.eqb_eq in E10; lia|].
  destruct (Nat.eqb n 13) eqn:E13; [apply Nat.eqb_eq in E13; lia|].
  destruct (Nat.eqb n 9) eqn:E9; [apply Nat.eqb_eq in E9; lia|].
  apply Nat.leb_le in H1. rewrite H1, H2. reflexivity.
Qed.

(** A name that needs no escape is sent between two quotes, as it is. *)
Lemma json_dumps_plain (s : string) :
  PyStr.plain s = true ->
  PyStr.json_dumps s = String PyStr.quote (s ++ String PyStr.quote EmptyString).
Proof.
  intros H. unfold PyStr.json_dumps. f_equal. f_equal.
  induction s as [|c s IH]; [reflexivity|].
  simpl in H. apply andb_true_iff in H as [Hc Hs].
  simpl. rewrite (escape_ascii_plain c Hc), (IH Hs). reflexivity.
Qed.

(** Quote, backslash, line feed and a character above the printable
    range, as [json.dumps] writes them. *)
Example json_dumps_escapes :
  PyStr.json_dumps
    (String "a" (String PyStr.quote (String PyStr.backslash
       (String "010" (String "200" EmptyString)))))
  = String PyStr.quote
      (String "a"
         (String PyStr.backslash (String PyStr.quote
            (String PyStr.backslash (String PyStr.backslash
               (String PyStr.backslash
                  ("n" ++ String PyStr.backslash
                     ("u00c8" ++ String PyStr.quote EmptyString)))))))).
Proof. reflexivity. Qed.




(** ** Callers one after the other, and callers in threads *)



(** A thread that runs on its own, from the cache test on, does what
    the method does: five steps reach the end of every path. *)
Lemma run_call_alone_eq {World} (_api : TensorboardServiceClient World) run_name s :
  run_call_alone _api run_name 5 AtTest s
  = (Finished (fst (get_run_resource_name _api run_name s)),
     snd (get_run_resource_name _api run_name s)).
Proof.
  destruct s as [self e].
  destruct (_run_name_to_run_resource_name self !! run_name) as [v|] eqn:H.
  - rewrite (get_run_resource_name_hit _ _ _ _ _ H). simpl.
    rewrite H. rewrite bool_decide_eq_true_2 by eauto. simpl. rewrite H. reflexivity.
  - rewrite (get_run_resource_name_miss_eq _ _ _ _ H). simpl.
    rewrite H. rewrite bool_decide_eq_false_2 by (intros [x Hx]; discriminate). simpl.
    destruct (uuid4 _api (world e)) as [id w0]. simpl.
    destruct (create_tensorboard_run _api _ _ id w0) as [[r|ex] w1]; simpl.
    { rewrite lookup_insert_eq. reflexivity. }
    destruct ex as [message| | | |]; simpl; try reflexivity.
    destruct (PyStr.contains "already exist" message); [|reflexivity].
    simpl.
    destruct (list_tensorboard_runs _api _ w1) as [[l|ex'] w2]; [|reflexivity].
    rewrite <- run_fallback_eq.
    destruct (negb (PyStr.eqb (tbr_display_name (scan_runs run_name l (run_draft run_name)))
                              run_name)); simpl; [reflexivity|].
    rewrite lookup_insert_eq. reflexivity.
Qed.




(** * Further properties of the module *)

(** ** The log directory and its bucket *)

Local Open Scope string_scope.

Lemma after_literal_app (p s : string) : after_literal p (p ++ s) = Some s.
Proof.
  induction p as [|a p IH]; [reflexivity|].
  simpl. rewrite Ascii.eqb_refl. exact IH.
Qed.

Lemma after_literal_Some (p s r : string) : after_literal p s = Some r -> s = p ++ r.
Proof.
  revert s. induction p as [|a p IH]; intros s H.
  - injection H as ->. reflexivity.
  - destruct s as [|b s]; [discriminate|]. simpl in H.
    destruct (Ascii.eqb a b) eqn:E; [|discriminate].
    apply Ascii.eqb_eq in E. subst b. rewrite (IH s H). reflexivity.
Qed.

Lemma bucket_group_like (b : string) :
  bucket_like b = true ->
  bucket_group b = Some b
  /\ (forall path, bucket_group (b ++ String "/" path) = Some b)
  /\ bucket_group (b ++ String "010" EmptyString) = Some b.
Proof.
  induction b as [|c b IH]; intros H.
  - repeat split; reflexivity.
  - simpl in H. apply andb_true_iff in H as [H Hb].
    apply andb_true_iff in H as [H1 H2].
    apply negb_true_iff in H1, H2.
    destruct (IH Hb) as (I1 & I2 & I3).
    repeat split; intros; simpl; rewrite H1, H2, ?I1, ?I2, ?I3; reflexivity.
Qed.

Lemma bucket_group_Some (s name : string) :
  bucket_group s = Some name ->
  bucket_like name = true
  /\ exists rest,
      s = name ++ rest
      /\ (rest = EmptyString \/ rest = String "010" EmptyString
          \/ exists r, rest = String "/" r).
Proof.
  revert name. induction s as [|c s IH]; intros name H.
  - injection H as <-. split; [reflexivity|]. exists EmptyString. auto.
  - simpl in H.
    destruct (Nat.eqb (nat_of_ascii c) 47) eqn:E47.
    { injection H as <-. split; [reflexivity|].
      exists (String c s). split; [reflexivity|]. right; right.
      apply Nat.eqb_eq in E47.
      assert (c = "/"%char) as ->
        by (rewrite <- (ascii_nat_embedding c), E47; reflexivity).
      eauto. }
    destruct (Nat.eqb (nat_of_ascii c) 10) eqn:E10.
    { destruct s as [|d s]; [|discriminate]. injection H as <-.
      split; [reflexivity|].
      apply Nat.eqb_eq in E10.
      assert (c = "010"%char) as ->
        by (rewrite <- (ascii_nat_embedding c), E10; reflexivity).
      exists (String "010" EmptyString). auto. }
    destruct (bucket_group s) as [n|] eqn:Hs; [|discriminate].
    injection H as <-.
    destruct (IH n eq_refl) as (Hl & rest & -> & Hrest).
    split.
    + simpl. rewrite E47, E10, Hl. reflexivity.
    + exists rest. split; [reflexivity | exact Hrest].
Qed.

(** X11. For a [gs://] path, the storage library is asked for the
    bucket named by the text between [gs://] and the first slash, or by
    all that follows [gs://] when there is no slash; what it returns is
    returned, what it raises is raised. *)
Theorem get_source_bucket_of_gs_path (storage_bucket : string -> result Bucket)
  (b path : string) :
  bucket_like b = true ->
  get_source_bucket storage_bucket ("gs://" ++ b ++ String "/" path)
  = bucket_or_error (storage_bucket b)
  /\ get_source_bucket storage_bucket ("gs://" ++ b) = bucket_or_error (storage_bucket b).
Proof.
  intros H. destruct (bucket_group_like b H) as (H1 & H2 & _).
  unfold get_source_bucket, bucket_or_error.
  rewrite !after_literal_app, H1, H2. split; reflexivity.
Qed.

Lemma get_source_bucket_of_gs_path_witness :
  (get_source_bucket example_storage_bucket ("gs://" ++ "my-bucket" ++ String "/" "logs/run-a")
   = Ok (Some (mkBucket "my-bucket"))
   /\ get_source_bucket example_storage_bucket ("gs://" ++ "my-bucket")
      = Ok (Some (mkBucket "my-bucket")))
  /\ get_source_bucket example_storage_bucket ("gs://" ++ EmptyString)
     = Raise (OtherError "IndexError" "string index out of range").
Proof.
  split.
  - apply (get_source_bucket_of_gs_path example_storage_bucket "my-bucket" "logs/run-a").
    reflexivity.
  - apply (get_source_bucket_of_gs_path example_storage_bucket EmptyString EmptyString).
    reflexivity.
Defined.

(** X12. Whatever [get_source_bucket] returns or raises, other than
    [None], is the answer of the storage library for a name that the
    path holds right after [gs://]; the name has no slash and no line
    feed, and in the path it is followed by a slash, by the end, or by
    one final line feed. *)
Theorem get_source_bucket_sound (storage_bucket : string -> result Bucket)
  (logdir : string) :
  get_source_bucket storage_bucket logdir <> Ok None ->
  exists name rest,
    get_source_bucket storage_bucket logdir = bucket_or_error (storage_bucket name)
    /\ bucket_like name = true
    /\ logdir = "gs://" ++ name ++ rest
    /\ (rest = EmptyString \/ rest = String "010" EmptyString
        \/ exists r, rest = String "/" r).
Proof.
  unfold get_source_bucket, bucket_or_error. intros H.
  destruct (after_literal "gs://" logdir) as [tail|] eqn:Hp; [|congruence].
  destruct (bucket_group tail) as [name|] eqn:Hg; [|congruence].
  apply after_literal_Some in Hp.
  destruct (bucket_group_Some _ _ Hg) as (Hl & rest & -> & Hrest).
  exists name, rest. repeat split; assumption.
Qed.

Lemma get_source_bucket_sound_witness :
  exists name rest,
    get_source_bucket example_storage_bucket "gs://my-bucket/logs"
    = bucket_or_error (example_storage_bucket name)
    /\ bucket_like name = true
    /\ "gs://my-bucket/logs" = "gs://" ++ name ++ rest
    /\ (rest = EmptyString \/ rest = String "010" EmptyString
        \/ exists r, rest = String "/" r).
Proof.
  apply (get_source_bucket_sound example_storage_bucket "gs://my-bucket/logs").
  discriminate.
Defined.

Lemma bucket_group_None (s : string) :
  bucket_group s = None ->
  exists b c r, bucket_like b = true /\ s = b ++ String "010" (String c r).
Proof.
  induction s as [|a s IH]; intros H; [discriminate|].
  simpl in H.
  destruct (Nat.eqb (nat_of_ascii a) 47) eqn:E47; [discriminate|].
  destruct (Nat.eqb (nat_of_ascii a) 10) eqn:E10.
  - destruct s as [|c r]; [discriminate|].
    apply Nat.eqb_eq in E10.
    assert (a = "010"%char) as ->
      by (rewrite <- (ascii_nat_embedding a), E10; reflexivity).
    exists EmptyString, c, r. split; reflexivity.
  - destruct (bucket_group s) as [n|] eqn:Hs; [discriminate|].
    destruct (IH eq_refl) as (b & c & r & Hb & ->).
    exists (String a b), c, r. split; [|reflexivity].
    simpl. rewrite E47, E10, Hb. reflexivity.
Qed.

(** X13. [None] is returned exactly for a path that does not start
    with [gs://] (a local directory), or in which a line feed comes
    before the first slash and is not the last character; the storage
    library is not called then. *)
Theorem get_source_bucket_none (storage_bucket : string -> result Bucket)
  (logdir : string) :
  get_source_bucket storage_bucket logdir = Ok None
  <-> ((forall tail, logdir <> "gs://" ++ tail)
       \/ (exists b c r,
             bucket_like b = true
             /\ logdir = "gs://" ++ b ++ String "010" (String c r))).
Proof.
  split.
  - unfold get_source_bucket. intros H.
    destruct (after_literal "gs://" logdir) as [tail|] eqn:Hp.
    + right. apply after_literal_Some in Hp.
      destruct (bucket_group tail) as [name|] eqn:Hg.
      * destruct (storage_bucket name); discriminate.
      * destruct (bucket_group_None _ Hg) as (b & c & r & Hb & ->). eauto 6.
    + left. intros tail ->. rewrite after_literal_app in Hp. discriminate.
  - intros [H | (b & c & r & Hb & ->)].
    + unfold get_source_bucket.
      destruct (after_literal "gs://" logdir) as [tail|] eqn:Hp; [|reflexivity].
      apply after_literal_Some in Hp. destruct (H tail Hp).
    + unfold get_source_bucket. rewrite after_literal_app.
      assert (Hg : bucket_group (b ++ String "010" (String c r)) = None);
        [|rewrite Hg; reflexivity].
      induction b as [|a b IH]; [reflexivity|].
      simpl in Hb. apply andb_true_iff in Hb as [H Hb].
      apply andb_true_iff in H as [H1 H2]. apply negb_true_iff in H1, H2.
      simpl. rewrite H1, H2, (IH Hb). reflexivity.
Qed.

Lemma get_source_bucket_none_witness :
  get_source_bucket example_storage_bucket "/tmp/logs/run-a" = Ok None
  /\ get_source_bucket example_storage_bucket
       ("gs://" ++ "ab" ++ String "010" (String "c" "/d")) = Ok None.
Proof.
  split.
  - apply (proj2 (get_source_bucket_none example_storage_bucket "/tmp/logs/run-a")).
    left. intros tail H. discriminate H.
  - apply (proj2 (get_source_bucket_none example_storage_bucket
                    ("gs://" ++ "ab" ++ String "010" (String "c" "/d")))).
    right. exists "ab", "c"%char, "/d". split; reflexivity.
Defined.

(** ** The filter expression *)

Lemma unescape_head_escape (c : ascii) (r : string) :
  unescape_head (PyStr.escape_ascii c ++ r) = Some (c, r).
Proof.
  destruct c as [[|] [|] [|] [|] [|] [|] [|] [|]]; reflexivity.
Qed.

Lemma escape_ascii_not_empty (c : ascii) (r : string) :
  PyStr.escape_ascii c ++ r <> EmptyString.
Proof.
  intros H. pose proof (unescape_head_escape c r) as Hu. rewrite H in Hu. discriminate.
Qed.

Lemma string_app_assoc (a b c : string) : (a ++ b) ++ c = a ++ (b ++ c).
Proof.
  induction a as [|x a IH]; [reflexivity|].
  change (String x ((a ++ b) ++ c) = String x (a ++ (b ++ c))). rewrite IH. reflexivity.
Qed.

(** Escaped names are read back unambiguously: the closing quote ends
    the name, since a quote of the name is written after a backslash. *)
Lemma escape_all_inj (s1 s2 : string) :
  PyStr.escape_all s1 ++ String PyStr.quote EmptyString
  = PyStr.escape_all s2 ++ String PyStr.quote EmptyString ->
  s1 = s2.
Proof.
  revert s2. induction s1 as [|c1 s1 IH]; intros [|c2 s2] H; try reflexivity.
  - change (PyStr.escape_all (String c2 s2)) with
      (PyStr.escape_ascii c2 ++ PyStr.escape_all s2) in H.
    rewrite string_app_assoc in H.
    pose proof (unescape_head_escape c2
                  (PyStr.escape_all s2 ++ String PyStr.quote EmptyString)) as H2.
    rewrite <- H in H2. simpl in H2. injection H2 as <- H2.
    rewrite <- H2 in H. discriminate H.
  - change (PyStr.escape_all (String c1 s1)) with
      (PyStr.escape_ascii c1 ++ PyStr.escape_all s1) in H.
    rewrite string_app_assoc in H.
    pose proof (unescape_head_escape c1
                  (PyStr.escape_all s1 ++ String PyStr.quote EmptyString)) as H1.
    rewrite H in H1. simpl in H1. injection H1 as <- H1.
    rewrite <- H1 in H. discriminate H.
  - change (PyStr.escape_all (String c1 s1)) with
      (PyStr.escape_ascii c1 ++ PyStr.escape_all s1) in H.
    change (PyStr.escape_all (String c2 s2)) with
      (PyStr.escape_ascii c2 ++ PyStr.escape_all s2) in H.
    rewrite !string_app_assoc in H.
    pose proof (unescape_head_escape c1
                  (PyStr.escape_all s1 ++ String PyStr.quote EmptyString)) as H1.
    rewrite H in H1. rewrite unescape_head_escape in H1.
    injection H1 as -> Heq.
    f_equal. apply IH. symmetry. exact Heq.
Qed.

(** X14. Two tag names made of code points below 256 (the names a
    [string] holds) are never sent with the same filter. *)
Theorem display_name_filter_inj (tag_name1 tag_name2 : string) :
  display_name_filter tag_name1 = display_name_filter tag_name2 ->
  tag_name1 = tag_name2.
Proof.
  unfold display_name_filter, PyStr.json_dumps. intros H.
  apply escape_all_inj.
  injection H as H. exact H.
Qed.

Lemma display_name_filter_inj_witness : "loss" = "loss".
Proof. exact (display_name_filter_inj "loss" "loss" eq_refl). Defined.

Lemma printable_app (a b : string) :
  printable a = true -> printable b = true -> printable (a ++ b) = true.
Proof.
  intros Ha Hb. induction a as [|c a IH]; [exact Hb|].
  simpl in Ha. apply andb_true_iff in Ha as [Hc Ha].
  change (printable (String c (a ++ b)) = true). simpl. rewrite Hc, (IH Ha). reflexivity.
Qed.

Lemma escape_ascii_printable (c : ascii) : printable (PyStr.escape_ascii c) = true.
Proof.
  destruct c as [[|] [|] [|] [|] [|] [|] [|] [|]]; reflexivity.
Qed.

(** X15. Whatever the tag name, the filter is made of printable ASCII
    characters only: control characters, the quote, the backslash and
    the characters above [~] of the name are sent as escapes. *)
Theorem display_name_filter_printable (tag_name : string) :
  printable (display_name_filter tag_name) = true.
Proof.
  unfold display_name_filter, PyStr.json_dumps.
  apply printable_app; [reflexivity|].
  change (printable_ascii PyStr.quote
          && printable (PyStr.escape_all tag_name ++ String PyStr.quote EmptyString)
          = true).
  simpl. apply printable_app; [|reflexivity].
  induction tag_name as [|c s IH]; [reflexivity|].
  simpl. apply printable_app; [apply escape_ascii_printable | exact IH].
Qed.

(** X16. A tag name that needs no escape is sent as it is, between two
    quotes. *)
Theorem display_name_filter_plain (tag_name : string) :
  PyStr.plain tag_name = true ->
  display_name_filter tag_name
  = "display_name = " ++ String PyStr.quote (tag_name ++ String PyStr.quote EmptyString).
Proof.
  intros H. unfold display_name_filter. rewrite (json_dumps_plain _ H). reflexivity.
Qed.

Lemma display_name_filter_plain_witness :
  display_name_filter "eval/loss"
  = "display_name = " ++ String PyStr.quote ("eval/loss" ++ String PyStr.quote EmptyString).
Proof. apply display_name_filter_plain. reflexivity. Defined.

(** ** The test of the [except] clauses *)

Lemma prefix_app (sub b : string) : String.prefix sub (sub ++ b) = true.
Proof.
  induction sub as [|c sub IH]; [destruct b; reflexivity|].
  simpl. destruct (ascii_dec c c) as [_|N]; [exact IH | destruct (N eq_refl)].
Qed.

Lemma prefix_true (sub s : string) :
  String.prefix sub s = true -> exists b, s = sub ++ b.
Proof.
  revert s. induction sub as [|c sub IH]; intros s H.
  - exists s. reflexivity.
  - destruct s as [|d s]; [discriminate|]. simpl in H.
    destruct (ascii_dec c d) as [->|_]; [|discriminate].
    destruct (IH s H) as (b & ->). exists b. reflexivity.
Qed.

(** [sub in s] holds exactly when [s] is some text, [sub], and some
    text. *)
Lemma contains_spec (sub s : string) :
  PyStr.contains sub s = true <-> exists a b, s = a ++ sub ++ b.
Proof.
  assert (Hnil : PyStr.contains sub EmptyString = String.prefix sub EmptyString)
    by (unfold PyStr.contains; apply orb_false_r).
  assert (Hcons : forall c s',
             PyStr.contains sub (String c s')
             = String.prefix sub (String c s') || PyStr.contains sub s')
    by reflexivity.
  split.
  - induction s as [|c s IH]; intros H.
    + rewrite Hnil in H. destruct (prefix_true _ _ H) as (b & ->).
      exists EmptyString, b. reflexivity.
    + rewrite Hcons in H. apply orb_true_iff in H as [H|H].
      * destruct (prefix_true _ _ H) as (b & ->). exists EmptyString, b. reflexivity.
      * destruct (IH H) as (a & b & ->). exists (String c a), b. reflexivity.
  - intros (a & b & ->). induction a as [|c a IH].
    + change (PyStr.contains sub (sub ++ b) = true).
      pose proof (prefix_app sub b) as Hp.
      destruct (sub ++ b) as [|c r].
      * rewrite Hnil. exact Hp.
      * rewrite Hcons, Hp. reflexivity.
    + change (PyStr.contains sub (String c (a ++ sub ++ b)) = true).
      rewrite Hcons, IH. apply orb_true_r.
Qed.

(** X17. The fallback is taken exactly for an [InvalidArgument] whose
    message reads [... already exist ...], wherever in the message and
    whatever surrounds it ([already exists], [already existing]). *)
Theorem is_conflict_spec (ex : exn) :
  is_conflict ex = true
  <-> exists before after,
      ex = InvalidArgument (before ++ "already exist" ++ after).
Proof.
  split.
  - destruct ex as [message| | | |]; simpl; try discriminate.
    intros H. apply contains_spec in H as (a & b & ->). eauto.
  - intros (a & b & ->). simpl. apply contains_spec. eauto.
Qed.

Lemma is_conflict_spec_witness :
  is_conflict (InvalidArgument ("Run " ++ "already exist" ++ "s in the experiment")) = true.
Proof.
  apply (proj2 (is_conflict_spec _)). exists "Run ", "s in the experiment". reflexivity.
Defined.

Local Open Scope list_scope.

(** ** The create call succeeds *)



(** ** The listing has no resource to offer *)



(** ** Which errors a resolver raises *)

(** X3. An error raised by [get_run_resource_name] is the error of the
    create call (when that is not a name conflict), or the error of the
    list call, or the [ExistingResourceNotFoundError] for a listing
    that is not empty and has no run of that name.  It raises nothing
    else of its own: no [ValueError], no [KeyError]. *)
Theorem get_run_resource_name_errors {World} (_api : TensorboardServiceClient World)
  run_name self (e : Env World) ex s1 :
  get_run_resource_name _api run_name (self, e) = (Raise ex, s1) ->
  let parent := _experiment_resource_name self in
  let id := fst (uuid4 _api (world e)) in
  let w0 := snd (uuid4 _api (world e)) in
  (exists w1,
      create_tensorboard_run _api parent (run_draft run_name) id w0 = (Raise ex, w1)
      /\ is_conflict ex = false)
  \/ (exists ex0 w1 w2,
        create_tensorboard_run _api parent (run_draft run_name) id w0 = (Raise ex0, w1)
        /\ is_conflict ex0 = true
        /\ list_tensorboard_runs _api parent w1 = (Raise ex, w2))
  \/ (exists ex0 w1 l w2,
        create_tensorboard_run _api parent (run_draft run_name) id w0 = (Raise ex0, w1)
        /\ is_conflict ex0 = true
        /\ list_tensorboard_runs _api parent w1 = (Ok l, w2)
        /\ l <> [] /\ matching_runs run_name l = []
        /\ ex = ExistingResourceNotFoundError (run_not_found_msg run_name)).
Proof.
  intros H. pose proof (get_run_resource_name_raise_miss _api _ _ _ _ H) as Hmiss.
  simpl in Hmiss. rewrite (get_run_resource_name_miss_eq _ _ _ _ Hmiss) in H.
  cbv zeta in *.
  destruct (create_tensorboard_run _api _ _ _ _) as [[r|ex0] w1]; [discriminate|].
  destruct (is_conflict ex0) eqn:Hk.
  - destruct (list_tensorboard_runs _api _ w1) as [[l|ex'] w2] eqn:Hl.
    + right; right. unfold run_outcome in H.
      destruct l as [|x l]; [discriminate|].
      destruct (matching_runs run_name (x :: l)) as [|r rest] eqn:Hm; [|discriminate].
      injection H as <- _.
      exists ex0, w1, (x :: l), w2. repeat split; try assumption; try reflexivity.
      discriminate.
    + right; left. injection H as <- _. eauto 6.
  - left. injection H as <- _. eauto.
Qed.

Lemma get_run_resource_name_errors_witness :
  exists ex0 w1 l w2,
    create_tensorboard_run Scripted.client "experiments/e1" (run_draft "run-a")
      "7c9e6679-7425-40de-944b-e07fc1f90ae7"
      [Scripted.ReplyRun (Raise Scripted.conflict);
       Scripted.ReplyRuns (Ok [Scripted.run "runs/0" "run-b"])]
    = (Raise ex0, w1)
    /\ is_conflict ex0 = true
    /\ list_tensorboard_runs Scripted.client "experiments/e1" w1 = (Ok l, w2)
    /\ l <> [] /\ matching_runs "run-a" l = [].
Proof.
  destruct (get_run_resource_name_errors Scripted.client "run-a"
              (OnePlatformResourceManager_init "experiments/e1")
              (Scripted.env [Scripted.ReplyRun (Raise Scripted.conflict);
                             Scripted.ReplyRuns (Ok [Scripted.run "runs/0" "run-b"])])
              _ _ eq_refl)
    as [(w1 & H & Hk) | [(ex0 & w1 & w2 & H & Hk & Hl)
                        | (ex0 & w1 & l & w2 & H & Hk & Hl & Hne & Hm & _)]].
  - vm_compute in H. discriminate H.
  - vm_compute in H. injection H as <- <-. vm_compute in Hl. discriminate Hl.
  - exists ex0, w1, l, w2. repeat split; assumption.
Defined.

(** X4. An error raised by [get_or_create] is the error of the create call
    (when that is not a name conflict), or the error of the list call,
    or [ExistingResourceNotFoundError] for a listing that is empty or
    starts with an empty message, or [ValueError] for a listing of two
    or more. *)
Theorem get_or_create_errors {World} (_api : TensorboardServiceClient World)
  tag_name creator self (e : Env World) ex s1 :
  get_or_create _api tag_name creator (self, e) = (Raise ex, s1) ->
  let parent := _run_resource_id self in
  (exists w1,
      create_tensorboard_time_series _api parent (ts_draft creator tag_name) (world e)
      = (Raise ex, w1)
      /\ is_conflict ex = false)
  \/ (exists ex0 w1 r2 w2,
        create_tensorboard_time_series _api parent (ts_draft creator tag_name) (world e)
        = (Raise ex0, w1)
        /\ is_conflict ex0 = true
        /\ list_tensorboard_time_series _api (ts_request parent tag_name) w1 = (r2, w2)
        /\ (r2 = Raise ex
            \/ (ex = ExistingResourceNotFoundError (ts_not_found_msg tag_name)
                /\ (r2 = Ok [] \/ exists t rest, r2 = Ok (t :: rest) /\ ts_bool t = false))
            \/ (ex = ValueError (ts_ambiguous_msg tag_name)
                /\ exists t1 t2 rest, r2 = Ok (t1 :: t2 :: rest) /\ ts_bool t1 = true))).
Proof.
  intros H. pose proof (get_or_create_raise_miss _api _ _ _ _ _ H) as Hmiss.
  simpl in Hmiss. rewrite (get_or_create_miss _ _ _ _ _ Hmiss) in H.
  rewrite create_or_get_time_series_body_eq in H. cbv zeta in *.
  destruct (create_tensorboard_time_series _api _ _ (world e)) as [[ts|ex0] w1];
    [discriminate|].
  destruct (is_conflict ex0) eqn:Hk.
  - right. exists ex0, w1.
    destruct (list_tensorboard_time_series _api _ w1) as [[l|ex'] w2] eqn:Hl.
    + exists (Ok l), w2.
      split; [reflexivity|]. split; [exact Hk|]. split; [reflexivity|]. clear Hl.
      destruct l as [|t1 [|t2 rest]]; simpl in H.
      * injection H as <- _. right; left. auto.
      * destruct (ts_bool t1) eqn:Hb; [discriminate|].
        injection H as <- _. right; left. eauto 6.
      * destruct (ts_bool t1) eqn:Hb.
        -- injection H as <- _. right; right. eauto 6.
        -- injection H as <- _. right; left. eauto 6.
    + exists (Raise ex'), w2. injection H as <- _.
      split; [reflexivity|]. split; [exact Hk|]. split; [reflexivity|]. left. reflexivity.
  - left. injection H as <- _. eauto.
Qed.

Lemma get_or_create_errors_witness :
  exists ex0 w1 r2 w2,
    create_tensorboard_time_series Scripted.client "runs/1"
      (ts_draft Scripted.scalar_creator "loss")
      [Scripted.ReplyTimeSeries (Raise Scripted.conflict);
       Scripted.ReplyTimeSeriesList (Ok [])]
    = (Raise ex0, w1)
    /\ is_conflict ex0 = true
    /\ list_tensorboard_time_series Scripted.client (ts_request "runs/1" "loss") w1
       = (r2, w2).
Proof.
  destruct (get_or_create_errors Scripted.client "loss" Scripted.scalar_creator
              (TimeSeriesResourceManager_init "runs/1")
              (Scripted.env [Scripted.ReplyTimeSeries (Raise Scripted.conflict);
                             Scripted.ReplyTimeSeriesList (Ok [])])
              _ _ eq_refl)
    as [(w1 & H & Hk) | (ex0 & w1 & r2 & w2 & H & Hk & Hl & _)].
  - vm_compute in H. discriminate H.
  - exists ex0, w1, r2, w2. repeat split; assumption.
Defined.

(** ** What a call leaves alone *)

Lemma get_run_resource_name_manager {World} (_api : TensorboardServiceClient World)
  run_name self (e : Env World) :
  fst (snd (get_run_resource_name _api run_name (self, e))) = self
  \/ exists v, fst (snd (get_run_resource_name _api run_name (self, e)))
               = cache_run self run_name v.
Proof.
  destruct (_run_name_to_run_resource_name self !! run_name) as [v|] eqn:H.
  - rewrite (get_run_resource_name_hit _ _ _ _ _ H). left. reflexivity.
  - rewrite (get_run_resource_name_miss_eq _ _ _ _ H). simpl.
    destruct (create_tensorboard_run _api _ _ _ _) as [[r|ex] w1]; simpl; [eauto|].
    destruct (is_conflict ex); [|auto].
    destruct (list_tensorboard_runs _api _ w1) as [[l|ex'] w2]; [|auto].
    destruct (run_outcome run_name l); simpl; eauto.
Qed.

Lemma get_time_series_resource_name_manager {World}
  (_api : TensorboardServiceClient World) run_name tag_name creator self (e : Env World) :
  let self1 := fst (snd (get_run_resource_name _api run_name (self, e))) in
  fst (snd (get_time_series_resource_name _api run_name tag_name creator (self, e))) = self
  \/ fst (snd (get_time_series_resource_name _api run_name tag_name creator (self, e)))
     = self1
  \/ exists v,
      fst (snd (get_time_series_resource_name _api run_name tag_name creator (self, e)))
      = cache_time_series self1 run_name tag_name v.
Proof.
  destruct (_run_tag_name_to_time_series_name self !! (run_name, tag_name)) as [v|] eqn:H.
  - rewrite (get_time_series_resource_name_hit _ _ _ _ _ _ _ H). left. reflexivity.
  - rewrite (get_time_series_resource_name_miss _ _ _ _ _ _ H). right.
    destruct (get_run_resource_name _api run_name (self, e)) as [[rrn|ex] [self1 e1]];
      simpl; [|auto].
    destruct (create_or_get_time_series_body _api rrn tag_name creator e1) as [[ts|ex] e2];
      simpl; eauto.
Qed.

(** X5. A call for one key leaves the entries of all other keys as they
    are, whether it returns or raises: [get_run_resource_name] touches
    no other run name and nothing of the time-series cache;
    [get_time_series_resource_name] touches no other pair and no run
    name but its own; [get_or_create] touches no other tag. *)
Theorem other_keys_are_untouched {World} (_api : TensorboardServiceClient World) :
  (forall run_name other s,
      other <> run_name ->
      _run_name_to_run_resource_name (fst (snd (get_run_resource_name _api run_name s)))
      !! other = _run_name_to_run_resource_name (fst s) !! other
      /\ _run_tag_name_to_time_series_name
           (fst (snd (get_run_resource_name _api run_name s)))
         = _run_tag_name_to_time_series_name (fst s))
  /\ (forall run_name tag_name creator other_run other_pair s,
      other_run <> run_name -> other_pair <> (run_name, tag_name) ->
      _run_name_to_run_resource_name
        (fst (snd (get_time_series_resource_name _api run_name tag_name creator s)))
      !! other_run = _run_name_to_run_resource_name (fst s) !! other_run
      /\ _run_tag_name_to_time_series_name
           (fst (snd (get_time_series_resource_name _api run_name tag_name creator s)))
         !! other_pair = _run_tag_name_to_time_series_name (fst s) !! other_pair)
  /\ (forall tag_name creator other s,
      other <> tag_name ->
      _tag_to_time_series_proto (fst (snd (get_or_create _api tag_name creator s)))
      !! other = _tag_to_time_series_proto (fst s) !! other).
Proof.
  split; [|split].
  - intros run_name other [self e] Hne. split; [|apply get_run_resource_name_frame].
    simpl. destruct (get_run_resource_name_manager _api run_name self e) as [-> | (v & ->)];
      [reflexivity|].
    simpl. apply lookup_insert_ne. congruence.
  - intros run_name tag_name creator other_run other_pair [self e] Hr Hp. simpl.
    pose proof (get_run_resource_name_frame _api run_name (self, e)) as Hframe.
    assert (Hrun : _run_name_to_run_resource_name
                     (fst (snd (get_run_resource_name _api run_name (self, e))))
                   !! other_run = _run_name_to_run_resource_name self !! other_run).
    { destruct (get_run_resource_name_manager _api run_name self e) as [-> | (v & ->)];
        [reflexivity|].
      simpl. apply lookup_insert_ne. congruence. }
    simpl in Hframe.
    destruct (get_time_series_resource_name_manager _api run_name tag_name creator self e)
      as [-> | [-> | (v & ->)]].
    + split; reflexivity.
    + rewrite Hframe. split; [exact Hrun | reflexivity].
    + simpl. rewrite Hframe. split; [exact Hrun|].
      apply lookup_insert_ne. congruence.
  - intros tag_name creator other [self e] Hne. simpl.
    destruct (_tag_to_time_series_proto self !! tag_name) as [v|] eqn:H.
    + rewrite (get_or_create_hit _ _ _ _ _ _ H). reflexivity.
    + rewrite (get_or_create_miss _ _ _ _ _ H).
      destruct (create_or_get_time_series_body _api _ tag_name creator e) as [[ts|ex] e1];
        simpl; [|reflexivity].
      apply lookup_insert_ne. congruence.
Qed.

Lemma other_keys_are_untouched_witness :
  _run_name_to_run_resource_name
    (fst (snd (get_run_resource_name Scripted.client "run-b"
                 (snd (get_run_resource_name Scripted.client "run-a"
                         (Scripted.fresh
                            [Scripted.ReplyRun (Ok (Scripted.run "runs/1" "run-a"));
                             Scripted.ReplyRun (Ok (Scripted.run "runs/2" "run-b"))]))))))
  !! "run-a"
  = _run_name_to_run_resource_name
      (fst (snd (get_run_resource_name Scripted.client "run-a"
                   (Scripted.fresh
                      [Scripted.ReplyRun (Ok (Scripted.run "runs/1" "run-a"));
                       Scripted.ReplyRun (Ok (Scripted.run "runs/2" "run-b"))]))))
    !! "run-a".
Proof.
  refine (proj1 (proj1 (other_keys_are_untouched Scripted.client) "run-b" "run-a" _ _)).
  discriminate.
Defined.

(** X6. Over any sequence of requests the manager keeps its parent
    container and every cache entry it has: no entry is removed or
    given another value. *)
Theorem cache_entries_are_permanent {World} (_api : TensorboardServiceClient World) :
  (forall qs s,
      _experiment_resource_name (fst (serve_all _api qs s))
      = _experiment_resource_name (fst s)
      /\ (forall run_name v,
            _run_name_to_run_resource_name (fst s) !! run_name = Some v ->
            _run_name_to_run_resource_name (fst (serve_all _api qs s)) !! run_name
            = Some v)
      /\ (forall pair v,
            _run_tag_name_to_time_series_name (fst s) !! pair = Some v ->
            _run_tag_name_to_time_series_name (fst (serve_all _api qs s)) !! pair
            = Some v))
  /\ (forall qs s,
      _run_resource_id (fst (serve_tags _api qs s)) = _run_resource_id (fst s)
      /\ (forall tag_name v,
            _tag_to_time_series_proto (fst s) !! tag_name = Some v ->
            _tag_to_time_series_proto (fst (serve_tags _api qs s)) !! tag_name = Some v)).
Proof.
  split.
  - intros qs s. destruct (serve_all_grows _api qs s) as (H1 & H2 & H3).
    split; [exact H1|]. split; intros k v Hk; eapply lookup_weaken; eassumption.
  - intros qs s. destruct (serve_tags_grows _api qs s) as (H1 & H2).
    split; [exact H1|]. intros k v Hk; eapply lookup_weaken; eassumption.
Qed.

Lemma cache_entries_are_permanent_witness :
  _run_name_to_run_resource_name
    (fst (serve_all Scripted.client
            [ResolveRun "run-b";
             ResolveTimeSeries "run-a" "loss" Scripted.scalar_creator]
            (snd (get_run_resource_name Scripted.client "run-a"
                    (Scripted.fresh
                       [Scripted.ReplyRun (Ok (Scripted.run "runs/1" "run-a"));
                        Scripted.ReplyRun (Raise Scripted.too_long);
                        Scripted.ReplyTimeSeries
                          (Ok (Scripted.series "ts/1" "loss"))])))))
  !! "run-a" = Some "runs/1".
Proof.
  refine (proj1 (proj2 (proj1 (cache_entries_are_permanent Scripted.client) _ _))
            "run-a" "runs/1" _).
  reflexivity.
Defined.

(** ** How many remote calls a request costs *)


(** ** The two levels together *)

(** X8. When the run cannot be resolved, [get_time_series_resource_name]
    stops there: it raises the error of the run resolution and leaves
    the manager, the world and the log as the run resolution left them,
    so that no time-series call is made. *)
Theorem run_failure_stops_time_series {World} (_api : TensorboardServiceClient World)
  run_name tag_name creator s ex s1 :
  _run_tag_name_to_time_series_name (fst s) !! (run_name, tag_name) = None ->
  get_run_resource_name _api run_name s = (Raise ex, s1) ->
  get_time_series_resource_name _api run_name tag_name creator s = (Raise ex, s1).
Proof.
  destruct s as [self e]. simpl. intros Hmiss Hrun.
  rewrite (get_time_series_resource_name_miss _ _ _ _ _ _ Hmiss), Hrun. reflexivity.
Qed.

Lemma run_failure_stops_time_series_witness :
  exists s1,
    get_time_series_resource_name Scripted.client "run-a" "loss" Scripted.scalar_creator
      (Scripted.fresh [Scripted.ReplyRun (Raise Scripted.too_long);
                       Scripted.ReplyTimeSeries (Ok (Scripted.series "ts/1" "loss"))])
    = (Raise Scripted.too_long, s1)
    /\ calls (snd s1)
       = [CreateTensorboardRun "experiments/e1" (run_draft "run-a")
            "7c9e6679-7425-40de-944b-e07fc1f90ae7"].
Proof.
  eexists. split.
  - apply run_failure_stops_time_series; reflexivity.
  - reflexivity.
Defined.

(** X9. With the run already resolved, the two-level resolver does for a
    new tag what a [TimeSeriesResourceManager] bound to that run does:
    the same remote calls on the same world, the same error if one is
    raised, and on success the name of the same time series, which
    each caches under its own key. *)
Theorem two_level_agrees_with_single_level {World}
  (_api : TensorboardServiceClient World)
  run_name tag_name creator self tags (e : Env World) :
  _run_name_to_run_resource_name self !! run_name = Some (_run_resource_id tags) ->
  _run_tag_name_to_time_series_name self !! (run_name, tag_name) = None ->
  _tag_to_time_series_proto tags !! tag_name = None ->
  snd (snd (get_time_series_resource_name _api run_name tag_name creator (self, e)))
  = snd (snd (get_or_create _api tag_name creator (tags, e)))
  /\ match fst (get_or_create _api tag_name creator (tags, e)) with
     | Ok ts =>
         fst (get_time_series_resource_name _api run_name tag_name creator (self, e))
         = Ok (ts_name ts)
         /\ _run_tag_name_to_time_series_name
              (fst (snd (get_time_series_resource_name _api run_name tag_name creator
                           (self, e))))
            !! (run_name, tag_name) = Some (ts_name ts)
         /\ _tag_to_time_series_proto
              (fst (snd (get_or_create _api tag_name creator (tags, e))))
            !! tag_name = Some ts
     | Raise ex =>
         fst (get_time_series_resource_name _api run_name tag_name creator (self, e))
         = Raise ex
     end.
Proof.
  intros Hrun Hmiss Htag.
  rewrite (get_time_series_resource_name_miss _ _ _ _ _ _ Hmiss).
  rewrite (get_run_resource_name_hit _ _ _ _ _ Hrun).
  rewrite (get_or_create_miss _ _ _ _ _ Htag).
  destruct (create_or_get_time_series_body _api (_run_resource_id tags) tag_name creator e)
    as [[ts|ex] e1]; simpl.
  - rewrite !lookup_insert_eq. repeat split; reflexivity.
  - split; reflexivity.
Qed.

Lemma two_level_agrees_with_single_level_witness :
  snd (snd (get_time_series_resource_name Scripted.client "run-a" "loss"
              Scripted.scalar_creator
              (cache_run (OnePlatformResourceManager_init "experiments/e1")
                         "run-a" "runs/1",
               Scripted.env [Scripted.ReplyTimeSeries (Raise Scripted.conflict);
                             Scripted.ReplyTimeSeriesList
                               (Ok [Scripted.series "ts/1" "loss"])])))
  = snd (snd (get_or_create Scripted.client "loss" Scripted.scalar_creator
                (TimeSeriesResourceManager_init "runs/1",
                 Scripted.env [Scripted.ReplyTimeSeries (Raise Scripted.conflict);
                               Scripted.ReplyTimeSeriesList
                                 (Ok [Scripted.series "ts/1" "loss"])]))).
Proof.
  refine (proj1 (two_level_agrees_with_single_level Scripted.client "run-a" "loss"
                   Scripted.scalar_creator
                   (cache_run (OnePlatformResourceManager_init "experiments/e1")
                              "run-a" "runs/1")
                   (TimeSeriesResourceManager_init "runs/1")
                   (Scripted.env [Scripted.ReplyTimeSeries (Raise Scripted.conflict);
                                  Scripted.ReplyTimeSeriesList
                                    (Ok [Scripted.series "ts/1" "loss"])])
                   _ _ _)); reflexivity.
Defined.

(** ** Where the remote calls go *)

Lemma call_under_weaken experiment (runs runs' : gmap string string) c :
  runs ⊆ runs' -> call_under experiment runs c -> call_under experiment runs' c.
Proof.
  unfold call_under. intros Hsub. destruct (is_run_call c); [auto|].
  intros (run_name & H). exists run_name. eapply lookup_weaken; eassumption.
Qed.

Lemma serve_calls_under {World} (_api : TensorboardServiceClient World) q s :
  exists new,
    calls (snd (serve _api q s)) = calls (snd s) ++ new
    /\ Forall (call_under (_experiment_resource_name (fst s))
                 (_run_name_to_run_resource_name (fst (serve _api q s)))) new.
Proof.
  destruct s as [self e].
  assert (Hrun : forall run_name runs,
             exists new,
               calls (snd (snd (get_run_resource_name _api run_name (self, e))))
               = calls e ++ new
               /\ Forall (call_under (_experiment_resource_name self) runs) new).
  { intros run_name runs. rewrite get_run_resource_name_calls.
    eexists. split; [reflexivity|].
    destruct (_run_name_to_run_resource_name self !! run_name); [constructor|].
    constructor; [reflexivity|].
    destruct (fst (create_tensorboard_run _api _ _ _ _)) as [r|ex]; [constructor|].
    destruct (is_conflict ex); repeat constructor. }
  destruct q as [run_name | run_name tag_name creator]; simpl.
  - apply Hrun.
  - destruct (_run_tag_name_to_time_series_name self !! (run_name, tag_name))
      as [v|] eqn:H.
    + rewrite (get_time_series_resource_name_hit _ _ _ _ _ _ _ H).
      exists []. simpl. rewrite app_nil_r. split; [reflexivity | constructor].
    + rewrite (get_time_series_resource_name_miss _ _ _ _ _ _ H).
      destruct (get_run_resource_name _api run_name (self, e))
        as [[rrn|ex] [self1 e1]] eqn:Hg.
      * pose proof (get_run_resource_name_ok_cached _api _ _ _ _ Hg) as Hc.
        simpl in Hc.
        destruct (create_or_get_time_series_body_calls_parent _api rrn tag_name creator e1)
          as (rest & Hb & Hp).
        destruct (Hrun run_name (_run_name_to_run_resource_name self1))
          as (new1 & H1 & F1).
        rewrite Hg in H1. simpl in H1.
        assert (Hts : Forall (call_under (_experiment_resource_name self)
                                (_run_name_to_run_resource_name self1))
                        (CreateTensorboardTimeSeries rrn (ts_draft creator tag_name)
                         :: rest)).
        { eapply Forall_impl; [exact Hp|].
          intros c Hparent. unfold call_under.
          destruct c; simpl in *; try discriminate;
            injection Hparent as ->; exists run_name; exact Hc. }
        destruct (create_or_get_time_series_body _api rrn tag_name creator e1)
          as [[ts|ex] e2]; simpl in *;
          rewrite Hb, H1, <- app_assoc;
          (eexists; split; [reflexivity|]; apply Forall_app; split; assumption).
      * simpl.
        destruct (Hrun run_name (_run_name_to_run_resource_name self1)) as (new1 & H1 & F1).
        rewrite Hg in H1. simpl in H1. eauto.
Qed.

(** X10. Over any sequence of requests, every run call of an
    [OnePlatformResourceManager] is made under its experiment and every
    time-series call under a run it has resolved and still holds in
    its cache; every call of a [TimeSeriesResourceManager] is a
    time-series call under its run. *)
Theorem calls_stay_under_the_parent {World} (_api : TensorboardServiceClient World) :
  (forall qs s,
      exists new,
        calls (snd (serve_all _api qs s)) = calls (snd s) ++ new
        /\ Forall (call_under (_experiment_resource_name (fst s))
                     (_run_name_to_run_resource_name (fst (serve_all _api qs s)))) new)
  /\ (forall qs s,
      exists new,
        calls (snd (serve_tags _api qs s)) = calls (snd s) ++ new
        /\ Forall (fun c => time_series_call_parent c = Some (_run_resource_id (fst s)))
             new).
Proof.
  split.
  - intros qs. induction qs as [|q qs IH]; intros s.
    + exists []. simpl. rewrite app_nil_r. split; [reflexivity | constructor].
    + simpl. destruct (serve_calls_under _api q s) as (new1 & H1 & F1).
      destruct (IH (serve _api q s)) as (new2 & H2 & F2).
      destruct (serve_grows _api q s) as (He & _ & _).
      destruct (serve_all_grows _api qs (serve _api q s)) as (_ & Hsub & _).
      exists (new1 ++ new2). rewrite H2, H1, <- app_assoc. split; [reflexivity|].
      apply Forall_app. split.
      * eapply Forall_impl; [exact F1|]. intros c. apply call_under_weaken, Hsub.
      * rewrite He in F2. exact F2.
  - intros qs. induction qs as [|q qs IH]; intros s.
    + exists []. simpl. rewrite app_nil_r. split; [reflexivity | constructor].
    + simpl. destruct (IH (serve_tag _api q s)) as (new2 & H2 & F2).
      destruct (get_or_create_grows _api (fst q) (snd q) s) as (Hid & _).
      fold (serve_tag _api q s) in Hid. rewrite Hid in F2.
      assert (H1 : exists new1,
                 calls (snd (serve_tag _api q s)) = calls (snd s) ++ new1
                 /\ Forall (fun c => time_series_call_parent c
                                     = Some (_run_resource_id (fst s))) new1).
      { unfold serve_tag. destruct s as [self e]. destruct q as [tag_name creator]. simpl.
        destruct (_tag_to_time_series_proto self !! tag_name) as [v|] eqn:H.
        - rewrite (get_or_create_hit _ _ _ _ _ _ H).
          exists []. simpl. rewrite app_nil_r. split; [reflexivity | constructor].
        - rewrite (get_or_create_miss _ _ _ _ _ H).
          destruct (create_or_get_time_series_body_calls_parent _api
                      (_run_resource_id self) tag_name creator e) as (rest & Hb & Hp).
          destruct (create_or_get_time_series_body _api _ tag_name creator e)
            as [[ts|ex] e1]; simpl in *; eauto. }
      destruct H1 as (new1 & H1 & F1).
      exists (new1 ++ new2). rewrite H2, H1, <- app_assoc. split; [reflexivity|].
      apply Forall_app. split; assumption.
Qed.
